(** * Reward ledger of the Telegram ad-network bot

    A shallow embedding of [telegram_bot.py]: the database functions
    [get_user_data], [create_user] and [handle_referral], the eligibility
    rules of [withdraw_command], and the commands [start_command],
    [balance_command], [referrals_command] and [stats_command].

    Python values are embedded with their dynamic types: [int] is an
    unbounded integer, [float] is IEEE-754 binary64 (Rocq's primitive
    floats), a [str] is held as its UTF-8 encoding, and a record read
    from the store is a dictionary from field names to values.  The
    remote store (Firebase Realtime Database) is an explicit state; every
    remote call may raise, which is driven by an oracle [net] that says,
    for the n-th call, whether it fails or at which server time it is
    served.

    The store is reached through the module [firebase_admin.db].  Two
    facts of that module decide what the database functions do:
    [db.reference] checks its path and raises [ValueError] when the path
    holds one of the characters [[].?#$], and the module has no attribute
    [ServerValue] (a client of this module asks for the server's clock
    with the dictionary [{'.sv': 'timestamp'}]), so the expression
    [db.ServerValue.TIMESTAMP] raises [AttributeError]. *)

From Stdlib Require Import ZArith Zpower Lia Bool String Ascii List Floats.
From stdpp Require Import base option gmap strings pretty.

Local Open Scope Z_scope.

(** ** Python values and arithmetic *)

Module Py.

(** The exceptions the modelled code can meet; all of them are instances
    of [Exception], which is what the handlers of the source catch.
    [NetworkError] stands for whatever a remote call raises. *)
Inductive exn :=
| TypeError
| OverflowError
| AttributeError
| ValueError
| NetworkError.

Inductive res (A : Type) :=
| Ok (a : A)
| Raise (e : exn).
Arguments Ok {A} a.
Arguments Raise {A} e.

Definition res_bind {A B} (k : A -> res B) (m : res A) : res B :=
  match m with
  | Ok a => k a
  | Raise e => Raise e
  end.

#[global] Instance res_mbind : MBind res := @res_bind.

(** [VServerTimestamp] is the dictionary [{'.sv': 'timestamp'}], the
    placeholder that the server replaces by its clock when the value is
    written. *)
Inductive value :=
| VNone
| VBool (b : bool)
| VInt (z : Z)
| VFloat (f : float)
| VStr (s : string)
| VServerTimestamp.

(** Numbers: Python's [bool] is a subclass of [int]. *)
Inductive num :=
| NInt (z : Z)
| NFloat (f : float).

Definition as_num (v : value) : option num :=
  match v with
  | VBool b => Some (NInt (Z.b2z b))
  | VInt z => Some (NInt z)
  | VFloat f => Some (NFloat f)
  | _ => None
  end.

Definition of_num (n : num) : value :=
  match n with
  | NInt z => VInt z
  | NFloat f => VFloat f
  end.

(** [int] to [float], round to nearest even. *)
Definition Z2F (z : Z) : float :=
  SF2Prim (binary_normalize prec emax z 0 false).

(** The conversion Python performs in mixed arithmetic; it raises
    [OverflowError] when the integer rounds beyond the largest float. *)
Definition float_of_int (z : Z) : res float :=
  if Z.abs z <? 2 ^ 1024 - 2 ^ 970 then Ok (Z2F z) else Raise OverflowError.

Definition to_float (n : num) : res float :=
  match n with
  | NInt z => float_of_int z
  | NFloat f => Ok f
  end.

Definition num_add (a b : num) : res num :=
  match a, b with
  | NInt x, NInt y => Ok (NInt (x + y))
  | _, _ =>
      x ← to_float a; y ← to_float b; Ok (NFloat (x + y)%float)
  end.

Definition num_sub (a b : num) : res num :=
  match a, b with
  | NInt x, NInt y => Ok (NInt (x - y))
  | _, _ =>
      x ← to_float a; y ← to_float b; Ok (NFloat (x - y)%float)
  end.

(** Python compares an [int] with a [float] by their exact values. *)
Definition cmp_int_float (z : Z) (f : float) : option comparison :=
  match Prim2SF f with
  | S754_nan => None
  | S754_infinity s => Some (if s then Gt else Lt)
  | S754_zero _ => Some (z ?= 0)
  | S754_finite s m e =>
      let v := cond_Zopp s (Zpos m) in
      Some (if 0 <=? e then z ?= v * 2 ^ e else z * 2 ^ (- e) ?= v)
  end.

Definition cmp_float (f g : float) : option comparison :=
  match PrimFloat.compare f g with
  | FEq => Some Eq
  | FLt => Some Lt
  | FGt => Some Gt
  | FNotComparable => None
  end.

Definition num_cmp (a b : num) : option comparison :=
  match a, b with
  | NInt x, NInt y => Some (x ?= y)
  | NInt x, NFloat g => cmp_int_float x g
  | NFloat f, NInt y => option_map CompOpp (cmp_int_float y f)
  | NFloat f, NFloat g => cmp_float f g
  end.

Definition num_eqb (a b : num) : bool :=
  match num_cmp a b with Some Eq => true | _ => false end.

Definition num_ltb (a b : num) : bool :=
  match num_cmp a b with Some Lt => true | _ => false end.

Definition num_leb (a b : num) : bool :=
  match num_cmp a b with Some (Lt | Eq) => true | _ => false end.

(** [v + w] *)
Definition py_add (v w : value) : res value :=
  match as_num v, as_num w with
  | Some a, Some b => n ← num_add a b; Ok (of_num n)
  | _, _ =>
      match v, w with
      | VStr s, VStr t => Ok (VStr (s ++ t))
      | _, _ => Raise TypeError
      end
  end.

(** [v - w] *)
Definition py_sub (v w : value) : res value :=
  match as_num v, as_num w with
  | Some a, Some b => n ← num_sub a b; Ok (of_num n)
  | _, _ => Raise TypeError
  end.

(** [v < w]; strings are ordered lexicographically, a number and a
    non-number are not ordered. *)
Definition py_lt (v w : value) : res bool :=
  match as_num v, as_num w with
  | Some a, Some b => Ok (num_ltb a b)
  | _, _ =>
      match v, w with
      | VStr s, VStr t =>
          Ok (match String.compare s t with Lt => true | _ => false end)
      | _, _ => Raise TypeError
      end
  end.

(** [v == w] never raises. *)
Definition py_eq (v w : value) : bool :=
  match as_num v, as_num w with
  | Some a, Some b => num_eqb a b
  | _, _ =>
      match v, w with
      | VNone, VNone => true
      | VStr s, VStr t => String.eqb s t
      | VServerTimestamp, VServerTimestamp => true
      | _, _ => false
      end
  end.

(** Truth value, as tested by [if v:] and [v or ...]. *)
Definition truthy (v : value) : bool :=
  match v with
  | VNone => false
  | VBool b => b
  | VInt z => negb (z =? 0)
  | VFloat f => negb (PrimFloat.eqb f 0%float)
  | VStr s => negb (String.eqb s "")
  | VServerTimestamp => true
  end.

(** [str.strip()] removes the leading and trailing characters for which
    [str.isspace] holds: U+0009 to U+000D, U+001C to U+0020, U+0085,
    U+00A0, U+1680, U+2000 to U+200A, U+2028, U+2029, U+202F, U+205F and
    U+3000.  They are recognised by their UTF-8 encodings, of one, two
    or three bytes. *)
Definition is_space1 (a : ascii) : bool :=
  let n := nat_of_ascii a in
  ((9 <=? n)%nat && (n <=? 13)%nat) || ((28 <=? n)%nat && (n <=? 32)%nat).

Definition is_space2 (a b : ascii) : bool :=
  let x := nat_of_ascii a in
  let y := nat_of_ascii b in
  (x =? 194)%nat && ((y =? 133)%nat || (y =? 160)%nat).

Definition is_space3 (a b c : ascii) : bool :=
  let x := nat_of_ascii a in
  let y := nat_of_ascii b in
  let z := nat_of_ascii c in
  ((x =? 225)%nat && (y =? 154)%nat && (z =? 128)%nat)
  || ((x =? 226)%nat && (y =? 128)%nat
      && (((128 <=? z)%nat && (z <=? 138)%nat) || (z =? 168)%nat || (z =? 169)%nat
          || (z =? 175)%nat))
  || ((x =? 226)%nat && (y =? 129)%nat && (z =? 159)%nat)
  || ((x =? 227)%nat && (y =? 128)%nat && (z =? 128)%nat).

Fixpoint lstrip (s : string) : string :=
  match s with
  | String a s1 =>
      if is_space1 a then lstrip s1
      else
        match s1 with
        | String b s2 =>
            if is_space2 a b then lstrip s2
            else
              match s2 with
              | String c s3 => if is_space3 a b c then lstrip s3 else s
              | EmptyString => s
              end
        | EmptyString => s
        end
  | EmptyString => EmptyString
  end.

(** The same on a reversed string, where the bytes of a character come
    last byte first. *)
Fixpoint lstrip_rev (s : string) : string :=
  match s with
  | String c s1 =>
      if is_space1 c then lstrip_rev s1
      else
        match s1 with
        | String b s2 =>
            if is_space2 b c then lstrip_rev s2
            else
              match s2 with
              | String a s3 => if is_space3 a b c then lstrip_rev s3 else s
              | EmptyString => s
              end
        | EmptyString => s
        end
  | EmptyString => EmptyString
  end.

Definition strip (s : string) : string :=
  String.rev (lstrip_rev (String.rev (lstrip s))).

End Py.

(** ** The remote store and the effects of the bot *)

Module Bot.
Import Py.

(** A record of the store, and a Python [dict] literal. *)
Abbreviation dict := (gmap string value).

Definition mkdict (l : list (string * value)) : dict := list_to_map l.

(** [d.get(k, v)] *)
Definition dict_get (d : dict) (k : string) (v : value) : value :=
  default v (d !! k).

(** What the process prints. *)
Inductive log_line :=
| LogErrorGettingUser (e : exn)
| LogErrorCreatingUser (e : exn)
| LogErrorHandlingReferral (e : exn)
| LogUserCreated (user_id : string)
| LogReferral (referrer_id new_user_id : string).

(** The store holds the account records under [users/<id>] and the
    referral ledger under [referrals/<referrer>/<referred>].  [calls]
    counts the remote calls made so far, [console] is the output printed
    so far. *)
Record world := World {
  users : gmap string dict;
  referrals : gmap (string * string) dict;
  calls : nat;
  console : list log_line
}.

Definition set_users (f : gmap string dict -> gmap string dict) (w : world) : world :=
  World (f (users w)) (referrals w) (calls w) (console w).

Definition set_referrals
    (f : gmap (string * string) dict -> gmap (string * string) dict) (w : world) : world :=
  World (users w) (f (referrals w)) (calls w) (console w).

Definition tick (w : world) : world :=
  World (users w) (referrals w) (S (calls w)) (console w).

(** Computations: state passing with exceptions; the effects made
    before an exception is raised stay. *)
Definition M (A : Type) : Type := world -> res A * world.

Definition ret {A} (a : A) : M A := fun w => (Ok a, w).

Definition bind {A B} (m : M A) (k : A -> M B) : M B :=
  fun w =>
    match m w with
    | (Ok a, w') => k a w'
    | (Raise e, w') => (Raise e, w')
    end.

Definition lift {A} (r : res A) : M A := fun w => (r, w).

(** [try: body except Exception as e: handler e] *)
Definition try_except {A} (body : M A) (handler : exn -> M A) : M A :=
  fun w =>
    match body w with
    | (Ok a, w') => (Ok a, w')
    | (Raise e, w') => handler e w'
    end.

Definition log (l : log_line) (w : world) : world :=
  World (users w) (referrals w) (calls w) (console w ++ [l]).

Definition print (l : log_line) : M unit := fun w => (Ok tt, log l w).

#[global] Instance M_mret : MRet M := @ret.
#[global] Instance M_mbind : MBind M := fun A B k m => bind m k.

(** Truth value of what [ref.get()] returns: [None] when the path is
    absent, else the record, which is true when it has a field. *)
Definition record_truthy (o : option dict) : bool :=
  match o with
  | Some d => negb (Nat.eqb (size d) 0)
  | None => false
  end.

(** The server replaces the time-stamp placeholder when it stores. *)
Definition stamp (t : Z) (v : value) : value :=
  match v with
  | VServerTimestamp => VInt t
  | _ => v
  end.

Definition resolve (t : Z) (d : dict) : dict := stamp t <$> d.

(** [db.ServerValue.TIMESTAMP]: the module [firebase_admin.db] has no
    attribute [ServerValue], so evaluating the expression raises. *)
Definition ServerValue_TIMESTAMP : res value := Raise AttributeError.

(** [db.reference(path)] makes no remote call; it raises [ValueError]
    when the path holds one of the characters [[].?#$]. *)
Definition illegal_path_char (c : ascii) : bool :=
  existsb (Ascii.eqb c) (list_ascii_of_string "[].?#$").

Definition valid_path (path : string) : bool :=
  negb (existsb illegal_path_char (list_ascii_of_string path)).

Definition db_reference (path : string) : res string :=
  if valid_path path then Ok path else Raise ValueError.

Section Remote.

(** [net n] is the fate of the n-th remote call: [None] when it raises,
    [Some t] when the server answers, at its time [t]. *)
Variable net : nat -> option Z.

(** A remote call; one that raises leaves the store as it was. *)
Definition remote {A} (op : Z -> world -> A * world) : M A :=
  fun w =>
    match net (calls w) with
    | None => (Raise NetworkError, tick w)
    | Some t => let '(a, w') := op t (tick w) in (Ok a, w')
    end.

(** [ref.get()] on [users/<uid>] *)
Definition db_get_user (uid : string) : M (option dict) :=
  remote (fun _ w => (users w !! uid, w)).

(** [ref.set(d)] on [users/<uid>] *)
Definition db_set_user (uid : string) (d : dict) : M unit :=
  remote (fun t w => (tt, set_users (insert uid (resolve t d)) w)).

(** [ref.update(d)] on [users/<uid>]: the fields of [d] are written, the
    other fields of the record stay. *)
Definition db_update_user (uid : string) (d : dict) : M unit :=
  remote (fun t w =>
    (tt, set_users (fun us => <[uid := resolve t d ∪ default ∅ (us !! uid)]> us) w)).

(** [ref.set(d)] on [referrals/<referrer>/<referred>] *)
Definition db_set_referral (referrer referred : string) (d : dict) : M unit :=
  remote (fun t w => (tt, set_referrals (insert (referrer, referred) (resolve t d)) w)).

(** *** Database functions *)

Definition user_key (telegram_id : Z) : string := "tg_" +:+ pretty telegram_id.

(** The path [users/tg_<telegram_id>] is made of letters, digits, [_],
    [-] and [/]: [db.reference] accepts it, and the read follows. *)
Definition get_user_data (telegram_id : Z) : M (option dict) :=
  try_except
    (db_get_user (user_key telegram_id))
    (fun e => print (LogErrorGettingUser e) ;; ret None).

Definition reward : value := VFloat 0x1.47ae147ae147bp-7.

(** The dictionary passed to [referrer_ref.update]; its entries are
    evaluated in order, and any of them may raise. *)
Definition referrer_update (referrer_data : dict) : res dict :=
  r ← py_add (dict_get referrer_data "referrals" (VInt 0)) (VInt 1);
  re ← py_add (dict_get referrer_data "referralEarnings" (VInt 0)) reward;
  b ← py_add (dict_get referrer_data "balance" (VInt 0)) reward;
  te ← py_add (dict_get referrer_data "totalEarnings" (VInt 0)) reward;
  Ok (mkdict [("referrals", r); ("referralEarnings", re);
              ("balance", b); ("totalEarnings", te)]).

(** The dictionary passed to [ref.set]; it is evaluated before the call,
    [referredAt] first. *)
Definition referral_entry (new_user_id : string) (new_telegram_id : Z) : res dict :=
  referredAt ← ServerValue_TIMESTAMP;
  Ok (mkdict [("referredAt", referredAt);
              ("userId", VStr new_user_id);
              ("telegramId", VInt new_telegram_id)]).

(** "Save referral relationship": the reference is made, then the entry
    is evaluated, then it is written. *)
Definition save_referral (referrer_id new_user_id : string) (new_telegram_id : Z)
  : M unit :=
  lift (db_reference ("referrals/" +:+ referrer_id +:+ "/" +:+ new_user_id)) ;;
  entry ← lift (referral_entry new_user_id new_telegram_id);
  db_set_referral referrer_id new_user_id entry.

(** "Update referrer stats": read the referrer, and if there is a
    record, write the four fields back. *)
Definition update_referrer_stats (referrer_id new_user_id : string) : M unit :=
  lift (db_reference ("users/" +:+ referrer_id)) ;;
  referrer_data ← db_get_user referrer_id;
  if record_truthy referrer_data then
    fields ← lift (referrer_update (default ∅ referrer_data));
    db_update_user referrer_id fields ;;
    print (LogReferral referrer_id new_user_id)
  else ret tt.

(** The writes and the read that follow the evaluation of the entry
    take the two identifiers as single path segments. *)
Definition handle_referral (referrer_id new_user_id : string) (new_telegram_id : Z)
  : M unit :=
  try_except
    (save_referral referrer_id new_user_id new_telegram_id ;;
     update_referrer_stats referrer_id new_user_id)
    (fun e => print (LogErrorHandlingReferral e)).

(** [s or ''] *)
Definition or_empty (s : option string) : string :=
  match s with
  | Some s => s
  | None => ""
  end.

(** The dictionary [user_data]; its entries are evaluated in order, and
    the last two are the ones that can raise. *)
Definition new_user_data (telegram_id : Z) (username : option string)
    (first_name : string) (last_name : option string) : res dict :=
  joinDate ← ServerValue_TIMESTAMP;
  lastUpdated ← ServerValue_TIMESTAMP;
  Ok (mkdict [("userId", VStr (user_key telegram_id));
              ("telegramId", VInt telegram_id);
              ("telegramName", VStr (strip (first_name +:+ " " +:+ or_empty last_name)));
              ("username", VStr (or_empty username));
              ("balance", VInt 0);
              ("adsWatched", VInt 0);
              ("dailyAdsWatched", VInt 0);
              ("network1AdsWatched", VInt 0);
              ("network2AdsWatched", VInt 0);
              ("referrals", VInt 0);
              ("referralEarnings", VInt 0);
              ("totalEarnings", VInt 0);
              ("totalWithdrawals", VInt 0);
              ("withdrawalPending", VBool false);
              ("lastReferralCount", VInt 0);
              ("joinDate", joinDate);
              ("lastUpdated", lastUpdated)]).

(** [referrer_id and referrer_id != user_id] *)
Definition referral_wanted (referrer_id : option string) (user_id : string) : option string :=
  match referrer_id with
  | Some r => if negb (String.eqb r "") && negb (String.eqb r user_id) then Some r else None
  | None => None
  end.

(** The reference is to [users/tg_<telegram_id>], a path that
    [db.reference] accepts; [user_data] is evaluated next, before the
    write. *)
Definition create_user (telegram_id : Z) (username : option string)
    (first_name : string) (last_name : option string) (referrer_id : option string)
  : M (option dict) :=
  try_except
    (let user_id := user_key telegram_id in
     user_data ← lift (new_user_data telegram_id username first_name last_name);
     db_set_user user_id user_data ;;
     match referral_wanted referrer_id user_id with
     | Some r => handle_referral r user_id telegram_id
     | None => ret tt
     end ;;
     print (LogUserCreated user_id) ;;
     ret (Some user_data))
    (fun e => print (LogErrorCreatingUser e) ;; ret None).

(** *** The withdraw command *)

Inductive reply :=
| ReplyUseStartFirst
| ReplyWithdrawalPending
| ReplyCannotWithdraw (remaining referrals : value)
| ReplyInsufficientBalance (balance need : value)
| ReplyCanWithdraw (balance referrals : value).

(** The rules of [withdraw_command], once the record is read. *)
Definition withdraw_rules (user_data : dict) : res reply :=
  let balance := dict_get user_data "balance" (VInt 0) in
  let referrals := dict_get user_data "referrals" (VInt 0) in
  let total_withdrawals := dict_get user_data "totalWithdrawals" (VInt 0) in
  let withdrawal_pending := dict_get user_data "withdrawalPending" (VBool false) in
  if truthy withdrawal_pending then Ok ReplyWithdrawalPending
  else
    gated ← (if py_eq total_withdrawals (VInt 0)
             then py_lt referrals (VInt 15) else Ok false);
    if gated : bool then
      remaining ← py_sub (VInt 15) referrals;
      Ok (ReplyCannotWithdraw remaining referrals)
    else
      low ← py_lt balance (VInt 60);
      if low : bool then
        need ← py_sub (VInt 60) balance;
        Ok (ReplyInsufficientBalance balance need)
      else Ok (ReplyCanWithdraw balance referrals).

Definition withdraw_command (telegram_id : Z) : M reply :=
  user_data ← get_user_data telegram_id;
  if record_truthy user_data then lift (withdraw_rules (default ∅ user_data))
  else ret ReplyUseStartFirst.

(** [referrals] successive referrals credited to one referrer, one per
    new user, in sequence. *)
Fixpoint referral_run (referrer_id : string) (new_telegram_ids : list Z) : M unit :=
  match new_telegram_ids with
  | [] => ret tt
  | t :: rest =>
      handle_referral referrer_id (user_key t) t ;;
      referral_run referrer_id rest
  end.

End Remote.

End Bot.

(** ** The vocabulary of the specification *)

Module Ledger.
Import Py Bot.

(** The Account Record, with the types of the data model. *)
Record Account := {
  acc_userId : string;
  acc_displayName : string;
  acc_handle : string;
  acc_balance : num;
  acc_adsWatched : Z;
  acc_dailyAdsWatched : Z;
  acc_network1AdsWatched : Z;
  acc_network2AdsWatched : Z;
  acc_referrals : Z;
  acc_referralEarnings : num;
  acc_totalEarnings : num;
  acc_totalWithdrawals : num;
  acc_withdrawalPending : bool;
  acc_joinDate : Z;
  acc_lastUpdated : Z
}.

Definition get_money (d : dict) (k : string) : option num :=
  match dict_get d k (VInt 0) with
  | VInt z => Some (NInt z)
  | VFloat f => Some (NFloat f)
  | _ => None
  end.

Definition get_count (d : dict) (k : string) : option Z :=
  match dict_get d k (VInt 0) with
  | VInt z => Some z
  | _ => None
  end.

Definition get_flag (d : dict) (k : string) : option bool :=
  match dict_get d k (VBool false) with
  | VBool b => Some b
  | _ => None
  end.

Definition get_text (d : dict) (k : string) : option string :=
  match dict_get d k (VStr "") with
  | VStr s => Some s
  | _ => None
  end.

(** The account a stored record stands for, when its fields have the
    types of the data model; an absent field reads as the default the
    commands use for it. *)
Definition account_of (d : dict) : option Account :=
  uid ← get_text d "userId";
  name ← get_text d "telegramName";
  handle ← get_text d "username";
  bal ← get_money d "balance";
  ads ← get_count d "adsWatched";
  daily ← get_count d "dailyAdsWatched";
  n1 ← get_count d "network1AdsWatched";
  n2 ← get_count d "network2AdsWatched";
  refs ← get_count d "referrals";
  rearn ← get_money d "referralEarnings";
  tearn ← get_money d "totalEarnings";
  twd ← get_money d "totalWithdrawals";
  pend ← get_flag d "withdrawalPending";
  joined ← get_count d "joinDate";
  updated ← get_count d "lastUpdated";
  Some (Build_Account uid name handle bal ads daily n1 n2 refs rearn tearn twd
          pend joined updated).

Record Config := {
  firstWithdrawalMinReferrals : Z;
  minWithdrawalBalance : num;
  subsequentWithdrawalMinReferrals : Z
}.

(** The values of the source. *)
Definition source_config : Config :=
  {| firstWithdrawalMinReferrals := 15;
     minWithdrawalBalance := NInt 60;
     subsequentWithdrawalMinReferrals := 10 |}.

Inductive EligibilityResult :=
| Pending
| NeedsReferrals (n : Z)
| NeedsBalance (amount : num)
| Eligible.

(** An amount as a float; an integer is rounded. *)
Definition amount_float (a : num) : float :=
  match a with
  | NInt z => Z2F z
  | NFloat f => f
  end.

(** Subtraction of amounts; an integer that meets a float is rounded to
    a float. *)
Definition amount_sub (a b : num) : num :=
  match a, b with
  | NInt x, NInt y => NInt (x - y)
  | _, _ => NFloat (amount_float a - amount_float b)%float
  end.

(** [CheckEligibility], following the four rules of the specification
    in their order. *)
Definition CheckEligibility (account : Account) (config : Config) : EligibilityResult :=
  if acc_withdrawalPending account then Pending
  else if num_eqb (acc_totalWithdrawals account) (NInt 0)
          && (acc_referrals account <? firstWithdrawalMinReferrals config)
  then NeedsReferrals (firstWithdrawalMinReferrals config - acc_referrals account)
  else if num_ltb (acc_balance account) (minWithdrawalBalance config)
  then NeedsBalance (amount_sub (minWithdrawalBalance config) (acc_balance account))
  else Eligible.

(** What the withdraw command answers for each result. *)
Definition render (account : Account) (r : EligibilityResult) : reply :=
  match r with
  | Pending => ReplyWithdrawalPending
  | NeedsReferrals n => ReplyCannotWithdraw (VInt n) (VInt (acc_referrals account))
  | NeedsBalance amount =>
      ReplyInsufficientBalance (of_num (acc_balance account)) (of_num amount)
  | Eligible => ReplyCanWithdraw (of_num (acc_balance account)) (VInt (acc_referrals account))
  end.

(** A network that serves every call at time [t]. *)
Definition up_at (t : Z) : nat -> option Z := fun _ => Some t.

Definition empty_world : world := World ∅ ∅ 0 [].

(** A network that serves the first [n] calls and then is down. *)
Definition down_after (n : nat) (t : Z) : nat -> option Z :=
  fun k => if (k <? n)%nat then Some t else None.

(** A store with one record that has none of the reward fields. *)
Definition bare_world : world :=
  World {[ "tg_3" := mkdict [("userId", VStr "tg_3")] ]} ∅ 0 [].

(** The record of a user with every counter at 0, as the data model
    describes a new account. *)
Definition first_record : dict :=
  mkdict [("userId", VStr "tg_7");
          ("telegramId", VInt 7);
          ("telegramName", VStr "Bob");
          ("username", VStr "bob");
          ("balance", VInt 0);
          ("adsWatched", VInt 0);
          ("dailyAdsWatched", VInt 0);
          ("network1AdsWatched", VInt 0);
          ("network2AdsWatched", VInt 0);
          ("referrals", VInt 0);
          ("referralEarnings", VInt 0);
          ("totalEarnings", VInt 0);
          ("totalWithdrawals", VInt 0);
          ("withdrawalPending", VBool false);
          ("lastReferralCount", VInt 0);
          ("joinDate", VInt 1700);
          ("lastUpdated", VInt 1700)].

(** A store that holds the record of one user. *)
Definition fresh_world : world := World {[ "tg_7" := first_record ]} ∅ 0 [].

(** A record with referrals, a balance and a pending flag; the other
    fields are absent and read as their defaults. *)
Definition sample_record (refs : Z) (bal : value) (pending : bool) : dict :=
  mkdict [("userId", VStr "tg_7"); ("referrals", VInt refs); ("balance", bal);
          ("totalWithdrawals", VInt 0); ("withdrawalPending", VBool pending)].

Definition sample_account (refs : Z) (bal : num) (pending : bool) : Account :=
  Build_Account "tg_7" "" "" bal 0 0 0 0 refs (NInt 0) (NInt 0) (NInt 0) pending 0 0.

End Ledger.

(** ** Rounding to binary64, in integers

    The amounts of the accounts are floats, or integers that meet
    floats.  To reason about the conversion of an integer and about what
    [:.2f] prints, the rounding that [SpecFloat] computes on mantissas and
    exponents is described here on integers: a finite float is counted in
    units of 2^-1074, the smallest positive float, so that its value is
    an integer. *)

Module Binary64.

(** The exponent, above -1074, of the last place of a float as large as
    [n] units: 53 bits are kept. *)
Definition ulp_exp (n : Z) : Z := Z.max (Z.log2 n + 1 - 53) 0.

(** [m] without its last [j] bits, rounded to nearest, ties to even. *)
Definition rne_mant (m j : Z) : Z :=
  let q := m / 2 ^ j in
  let r := m mod 2 ^ j in
  if (2 ^ j <? 2 * r) || ((2 ^ j =? 2 * r) && Z.odd q) then q + 1 else q.

(** The positive number of units [n], rounded to 53 bits. *)
Definition rne (n : Z) : Z := rne_mant n (ulp_exp n) * 2 ^ ulp_exp n.

(** The float of sign [s] whose magnitude is the rounded number [v]; it
    is an infinity beyond the largest exponent. *)
Definition finite_of (s : bool) (v : Z) : spec_float :=
  let k := ulp_exp v in
  match v / 2 ^ k with
  | Zpos m => if k - 1074 <=? 971 then S754_finite s m (k - 1074) else S754_infinity s
  | _ => S754_zero s
  end.

(** The float nearest to [n] units. *)
Definition Rz (n : Z) : spec_float :=
  match n with
  | 0 => S754_zero false
  | Zpos _ => finite_of false (rne n)
  | Zneg p => finite_of true (rne (Zpos p))
  end.

(** The value of a finite float, in units. *)
Definition SFval (x : spec_float) : Z :=
  match x with
  | S754_finite s m e => cond_Zopp s (Zpos m * 2 ^ (e + 1074))
  | _ => 0
  end.

(** The record of [shr] after [j] one-bit shifts of [m]: the quotient,
    the round bit and the sticky bit. *)
Definition shr_state (m : Z) (j : Z) : shr_record :=
  let rem := m mod 2 ^ j in
  Build_shr_record (m / 2 ^ j) (2 ^ j <=? 2 * rem)
    (negb (rem =? 0) && negb (2 * rem =? 2 ^ j)).

(** A mantissa and a shift in normal form: at most 53 bits, and exactly
    53 unless the shift is 0. *)
Definition normal (m k : Z) : Prop :=
  0 < m < 2 ^ 53 /\ 0 <= k /\ (k = 0 \/ 2 ^ 52 <= m).

(** A number of units above every finite float, for the infinities. *)
Definition top : Z := 2 ^ 2100.

(** The place of a float that is not a NaN in the order of the floats. *)
Definition SFord (x : spec_float) : Z :=
  match x with
  | S754_infinity s => cond_Zopp s top
  | _ => SFval x
  end.

Definition is_nan_sf (x : spec_float) : bool :=
  match x with
  | S754_nan => true
  | _ => false
  end.

Definition clamp (v : Z) : Z := if v <? 2 ^ 2098 then v else top.

(** The place in the order of the float nearest to [n] units. *)
Definition ordR (n : Z) : Z :=
  match n with
  | 0 => 0
  | Zpos _ => clamp (rne n)
  | Zneg p => - clamp (rne (Zpos p))
  end.

End Binary64.

(** ** Stores

    The relation between the stores before and after a call, the error
    a referral ends with, and a store the properties are run on. *)

Module Records.
Import Py Bot Ledger.

(** The store of [w'] is the store of [w]. *)
Definition same_store (w w' : world) : Prop :=
  users w' = users w /\ referrals w' = referrals w.

(** The exception that ends the [try] block of [handle_referral]: the
    path of the ledger entry is checked, then the entry is evaluated. *)
Definition referral_error (referrer_id new_user_id : string) : exn :=
  if valid_path ("referrals/" +:+ referrer_id +:+ "/" +:+ new_user_id)
  then AttributeError else ValueError.

(** A store in which the first user holds one referral and its reward. *)
Definition credited_world : world :=
  World {[ "tg_7" := <["referrals" := VInt 1]>
                       (<["referralEarnings" := reward]>
                          (<["balance" := reward]>
                             (<["totalEarnings" := reward]> first_record))) ]}
    {[ ("tg_7", "tg_8") := mkdict [("referredAt", VInt 1700);
                                   ("userId", VStr "tg_8");
                                   ("telegramId", VInt 8)] ]}
    0 [].

End Records.

(** ** The commands of the bot

    The handlers [start_command], [balance_command], [referrals_command]
    and [stats_command].  A handler answers with a message; the fixed text
    of the templates is left out, a message is the template chosen and the
    fields substituted into it.  A field printed with [:.2f] is the string
    Python prints; a field printed with [str] is kept as its value.  An
    exception that leaves a handler is its outcome [Crashed].  The line
    [Referrer detected: ...] that [start_command] prints when it is given an
    argument is left out of [console], which holds what the database
    functions print. *)

Module Commands.
Import Py Bot Binary64.

(** What a handler can raise: the exceptions of the database functions,
    and [ValueError], which [format] raises for a string. *)
Inductive raised :=
| PyError (e : exn)
| ValueError.

Inductive outcome (A : Type) :=
| Sent (a : A)
| Crashed (e : raised).
Arguments Sent {A} a.
Arguments Crashed {A} e.

(** The configuration read from the environment at start-up; [main]
    exits when [WEB_APP_URL] is not set, [ADMIN_CHAT_ID] may be unset. *)
Record environment := Environment {
  BOT_USERNAME : string;
  CHANNEL_URL : string;
  WEB_APP_URL : string;
  ADMIN_CHAT_ID : option string
}.

(** *** [format(v, '.2f')] *)

Definition two_digits (n : Z) : string :=
  if n <? 10 then "0" +:+ pretty n else pretty n.

(** A number of hundredths, printed with its sign. *)
Definition fmt_cents (negative : bool) (cents : Z) : string :=
  (if negative then "-" else "") +:+ pretty (cents / 100) +:+ "." +:+ two_digits (cents mod 100).

(** The hundredths in [m * 2^e], rounded to nearest, ties to even. *)
Definition cents_of (m : positive) (e : Z) : Z :=
  if 0 <=? e then Zpos m * 2 ^ e * 100 else rne_mant (Zpos m * 100) (- e).

Definition fmt_2f_float (f : float) : string :=
  match Prim2SF f with
  | S754_nan => "nan"
  | S754_infinity s => if s then "-inf" else "inf"
  | S754_zero s => fmt_cents s 0
  | S754_finite s m e => fmt_cents s (cents_of m e)
  end.

(** An [int] or a [bool] is converted to [float] first; a string is not a
    number, and [None] has no such format. *)
Definition fmt_2f (v : value) : outcome string :=
  match v with
  | VFloat f => Sent (fmt_2f_float f)
  | VInt z =>
      match float_of_int z with
      | Ok f => Sent (fmt_2f_float f)
      | Raise e => Crashed (PyError e)
      end
  | VBool b => Sent (fmt_2f_float (Z2F (Z.b2z b)))
  | VStr _ => Crashed ValueError
  | VNone | VServerTimestamp => Crashed (PyError TypeError)
  end.

(** *** Messages *)

Inductive message :=
| UseStartFirst
| Welcome (first_name last_name : string) (telegram_id : Z) (referred : bool)
| WelcomeBack (first_name balance : string) (ads_today referrals : value)
| Balance (balance total_earned from_referrals : string)
    (total_ads ads_today referrals : value)
| Referrals (total : value) (earned referral_link : string)
| AdminOnly
| Stats (total_users total_refs total_withdrawals : nat)
| StatsError (e : exn).

(** A message and the URLs of the buttons under it. *)
Record answer := Answer {
  text : message;
  buttons : list string
}.

(** Reading the caller's record; [get_user_data] catches what the read
    raises. *)
Definition with_user_data (net : nat -> option Z) (telegram_id : Z)
    (k : option dict -> world -> outcome answer * world) (w : world)
  : outcome answer * world :=
  match get_user_data net telegram_id w with
  | (Ok user_data, w') => k user_data w'
  | (Raise e, w') => (Crashed (PyError e), w')
  end.

(** *** /start *)

Definition open_app_url (env : environment) (telegram_id : Z) (first_name : string) : string :=
  WEB_APP_URL env +:+ "?tg_id=" +:+ pretty telegram_id +:+ "&tg_name=" +:+ first_name.

(** [context.args[0]] when there are arguments. *)
Definition referrer_arg (args : list string) : option string := head args.

Definition start_command (env : environment) (net : nat -> option Z) (telegram_id : Z)
    (username : option string) (first_name : string) (last_name : option string)
    (args : list string) (w : world) : outcome answer * world :=
  let referrer_id := referrer_arg args in
  let keyboard := [open_app_url env telegram_id first_name; CHANNEL_URL env] in
  with_user_data net telegram_id (fun user_data w1 =>
    if record_truthy user_data then
      let d := default ∅ user_data in
      match fmt_2f (dict_get d "balance" (VInt 0)) with
      | Sent balance =>
          (Sent (Answer (WelcomeBack first_name balance
                           (dict_get d "dailyAdsWatched" (VInt 0))
                           (dict_get d "referrals" (VInt 0)))
                   keyboard), w1)
      | Crashed e => (Crashed e, w1)
      end
    else
      match create_user net telegram_id username first_name last_name referrer_id w1 with
      | (Ok _, w2) =>
          let referred :=
            match referrer_id with
            | Some r => negb (String.eqb r "")
            | None => false
            end in
          (Sent (Answer (Welcome first_name (or_empty last_name) telegram_id referred)
                   keyboard), w2)
      | (Raise e, w2) => (Crashed (PyError e), w2)
      end) w.

(** *** /balance *)

Definition balance_command (net : nat -> option Z) (telegram_id : Z) (w : world)
  : outcome answer * world :=
  with_user_data net telegram_id (fun user_data w1 =>
    if record_truthy user_data then
      let d := default ∅ user_data in
      match fmt_2f (dict_get d "balance" (VInt 0)) with
      | Crashed e => (Crashed e, w1)
      | Sent balance =>
          match fmt_2f (dict_get d "totalEarnings" (VInt 0)) with
          | Crashed e => (Crashed e, w1)
          | Sent total_earned =>
              match fmt_2f (dict_get d "referralEarnings" (VInt 0)) with
              | Crashed e => (Crashed e, w1)
              | Sent from_referrals =>
                  (Sent (Answer (Balance balance total_earned from_referrals
                                   (dict_get d "adsWatched" (VInt 0))
                                   (dict_get d "dailyAdsWatched" (VInt 0))
                                   (dict_get d "referrals" (VInt 0)))
                           []), w1)
              end
          end
      end
    else (Sent (Answer UseStartFirst []), w1)) w.

(** *** /referrals *)

Definition referral_link (env : environment) (telegram_id : Z) : string :=
  "https://t.me/" +:+ BOT_USERNAME env +:+ "?start=" +:+ user_key telegram_id.

Definition share_url (link : string) : string :=
  "https://t.me/share/url?url=" +:+ link +:+ "&text=Join and earn!".

Definition referrals_command (env : environment) (net : nat -> option Z) (telegram_id : Z)
    (w : world) : outcome answer * world :=
  with_user_data net telegram_id (fun user_data w1 =>
    if record_truthy user_data then
      let d := default ∅ user_data in
      let link := referral_link env telegram_id in
      match fmt_2f (dict_get d "referralEarnings" (VInt 0)) with
      | Crashed e => (Crashed e, w1)
      | Sent earned =>
          (Sent (Answer (Referrals (dict_get d "referrals" (VInt 0)) earned link)
                   [share_url link]), w1)
      end
    else (Sent (Answer UseStartFirst []), w1)) w.

(** *** /stats *)

(** [str(user.id) != ADMIN_CHAT_ID]; an unset variable is [None], which no
    string equals. *)
Definition is_admin (env : environment) (user_id : Z) : bool :=
  match ADMIN_CHAT_ID env with
  | Some admin => String.eqb (pretty user_id) admin
  | None => false
  end.

(** What [db.reference('referrals').get()] returns: the entries grouped
    under their referrer. *)
Definition referrals_snapshot (w : world) : gmap string (gmap string dict) :=
  map_curry (M1:=gmap string) (M2:=gmap string) (referrals w).

(** The loop over [refs_snapshot.values()]. *)
Definition count_refs (snapshot : gmap string (gmap string dict)) : nat :=
  map_fold (fun _ user_refs total => (total + size user_refs)%nat) 0%nat snapshot.

(** The subtree [withdrawals] is written by no function of the bot; what
    the read returns is a parameter. *)
Definition stats_command (env : environment) (net : nat -> option Z) (user_id : Z)
    (withdrawals : gmap string dict) (w : world) : outcome answer * world :=
  if negb (is_admin env user_id) then (Sent (Answer AdminOnly []), w)
  else
    let body : M message :=
      users_snapshot ← remote net (fun _ w => (users w, w));
      refs_snapshot ← remote net (fun _ w => (referrals_snapshot w, w));
      withdrawals_snapshot ← remote net (fun _ w => (withdrawals, w));
      ret (Stats (size users_snapshot) (count_refs refs_snapshot)
             (size withdrawals_snapshot)) in
    match try_except body (fun e => ret (StatsError e)) w with
    | (Ok m, w') => (Sent (Answer m []), w')
    | (Raise e, w') => (Crashed (PyError e), w')
    end.

(** The welcome sent to a user who had no readable record. *)
Definition first_welcome (env : environment) (tid : Z) (fn : string) (ln : option string)
    (args : list string) : answer :=
  Answer (Welcome fn (or_empty ln) tid
            match referrer_arg args with
            | Some r => negb (String.eqb r "")
            | None => false
            end)
    [open_app_url env tid fn; CHANNEL_URL env].

(** The values that [format(v, '.2f')] accepts. *)
Definition is_amount (v : value) : Prop :=
  match v with
  | VFloat _ | VBool _ => True
  | VInt z => Z.abs z < 2 ^ 1024 - 2 ^ 970
  | _ => False
  end.

End Commands.

(** * Properties *)

(** ** Rounding to binary64 *)

Module Rounding.
Import Binary64.

(** The number of bits of a mantissa. *)
Lemma digits2_pos_log2 (p : positive) : Zpos (digits2_pos p) = Z.log2 (Zpos p) + 1.
Proof.
  induction p as [p IH|p IH|]; simpl; try reflexivity.
  - rewrite Pos2Z.inj_succ, IH. destruct p; simpl; lia.
  - rewrite Pos2Z.inj_succ, IH. destruct p; simpl; lia.
Qed.

Lemma pos_iter_xO (p d : positive) : Zpos (Pos.iter xO p d) = Zpos p * 2 ^ Zpos d.
Proof.
  change (Pos.iter xO p d) with (shift_pos d p).
  rewrite shift_pos_correct. change (Zpower_pos 2 d) with (2 ^ Zpos d). lia.
Qed.

(** [iter_pos] is iteration. *)
Lemma iter_pos_nat {A} (f : A -> A) (p : positive) (x : A) :
  SpecFloat.iter_pos f p x = Nat.iter (Pos.to_nat p) f x.
Proof.
  revert x. induction p as [p IH|p IH|]; intros x; cbn [SpecFloat.iter_pos].
  - rewrite !IH, Pos2Nat.inj_xI. change (f x) with (Nat.iter 1 f x).
    rewrite <- !Nat.iter_add. f_equal. lia.
  - rewrite !IH, Pos2Nat.inj_xO. rewrite <- !Nat.iter_add. f_equal. lia.
  - reflexivity.
Qed.

(** One step of the right shift, on a non-negative mantissa. *)
Lemma shr_1_nonneg (m : Z) (r s : bool) :
  0 <= m -> shr_1 (Build_shr_record m r s) = Build_shr_record (m / 2) (Z.odd m) (r || s).
Proof.
  intros Hm. destruct m as [|p|p]; [reflexivity| |lia].
  destruct p as [p|p|]; simpl; try reflexivity.
  - f_equal. rewrite Pos2Z.inj_xI. apply (Z.div_unique _ _ _ 1); lia.
  - f_equal. rewrite Pos2Z.inj_xO. apply (Z.div_unique _ _ _ 0); lia.
Qed.

(** A one-bit shift takes the state after [j] steps to the state after
    [j + 1] steps. *)
Lemma shr_state_step (m : Z) (j : Z) :
  0 <= m -> 0 <= j -> shr_1 (shr_state m j) = shr_state m (j + 1).
Proof.
  intros Hm Hj. unfold shr_state.
  assert (Hp : 0 < 2 ^ j) by (apply Z.pow_pos_nonneg; lia).
  rewrite shr_1_nonneg by (apply Z.div_pos; lia).
  rewrite Z.pow_add_r, Z.pow_1_r by lia.
  rewrite <- Z.div_div by lia.
  pose proof (Z.div_mod m (2 ^ j) ltac:(lia)) as Hdm.
  pose proof (Z.mod_pos_bound m (2 ^ j) Hp) as Hb.
  set (q := m / 2 ^ j) in *. set (rem := m mod 2 ^ j) in *.
  assert (Hq : 0 <= q) by (apply Z.div_pos; lia).
  pose proof (Z.div_mod q 2 ltac:(lia)) as Hq2.
  pose proof (Z.mod_pos_bound q 2 ltac:(lia)) as Hb2.
  assert (Hrem' : m mod (2 ^ j * 2) = rem + (q mod 2) * 2 ^ j).
  { symmetry. apply (Z.mod_unique_pos _ _ (q / 2)); nia. }
  rewrite Hrem'. rewrite Zodd_mod.
  f_equal.
  - destruct (Z.eqb_spec (q mod 2) 1) as [H1|H1].
    + symmetry. apply Z.leb_le. nia.
    + symmetry. apply Z.leb_gt. assert (q mod 2 = 0) by lia. nia.
  - apply eq_true_iff_eq. rewrite orb_true_iff, !andb_true_iff, !negb_true_iff.
    rewrite Z.leb_le, !Z.eqb_neq.
    assert (q mod 2 = 0 \/ q mod 2 = 1) as [H0|H1] by lia.
    + rewrite H0. split.
      * intros [H|[H1 H2]]; split; nia.
      * intros [H1 H2]. destruct (Z.eq_dec (2 * rem) (2 ^ j)); [left; lia|right; split; lia].
    + rewrite H1. split.
      * intros [H|[H2 H3]]; split; nia.
      * intros [H2 H3]. destruct (Z.eq_dec (2 * rem) (2 ^ j)); [left; lia|right; split; nia].
Qed.

Lemma shr_state_0 (m : Z) : shr_state m 0 = Build_shr_record m false false.
Proof.
  unfold shr_state. rewrite Z.pow_0_r, Z.div_1_r, Z.mod_1_r. reflexivity.
Qed.

Lemma shr_state_iter (m : Z) (n : nat) :
  0 <= m -> Nat.iter n shr_1 (Build_shr_record m false false) = shr_state m (Z.of_nat n).
Proof.
  intros Hm. induction n.
  - simpl. rewrite shr_state_0. reflexivity.
  - rewrite Nat.iter_succ, IHn, shr_state_step by lia. f_equal. lia.
Qed.

Lemma shr_spec (m e j : Z) :
  0 <= m -> 0 <= j -> shr (Build_shr_record m false false) e j = (shr_state m j, e + j).
Proof.
  intros Hm Hj. destruct j as [|p|p]; [| |lia].
  - simpl. rewrite shr_state_0, Z.add_0_r. reflexivity.
  - simpl. rewrite iter_pos_nat, shr_state_iter, positive_nat_Z by lia. reflexivity.
Qed.

Lemma round_shr_state (m j : Z) :
  0 <= j ->
  round_nearest_even (shr_m (shr_state m j)) (loc_of_shr_record (shr_state m j))
  = rne_mant m j.
Proof.
  intros Hj. unfold shr_state, rne_mant. cbn [shr_m loc_of_shr_record].
  assert (Hp : 0 < 2 ^ j) by (apply Z.pow_pos_nonneg; lia).
  pose proof (Z.mod_pos_bound m (2 ^ j) Hp) as Hb.
  set (q := m / 2 ^ j). set (rem := m mod 2 ^ j) in *.
  rewrite <- Z.negb_even.
  destruct (Z.leb_spec (2 ^ j) (2 * rem)) as [Hr|Hr];
    destruct (Z.eqb_spec rem 0) as [H0|H0];
    destruct (Z.eqb_spec (2 * rem) (2 ^ j)) as [He|He];
    destruct (Z.ltb_spec (2 ^ j) (2 * rem)) as [Hl|Hl];
    destruct (Z.eqb_spec (2 ^ j) (2 * rem)) as [He'|He'];
    cbn [negb andb orb round_nearest_even]; try lia; try reflexivity.
  destruct (Z.even q); reflexivity.
Qed.

Lemma Zdigits2_log2 (m : Z) : 0 < m -> Zdigits2 m = Z.log2 m + 1.
Proof. destruct m; try lia. intros _. apply digits2_pos_log2. Qed.

Lemma log2_scale (m a : Z) : 0 < m -> 0 <= a -> Z.log2 (m * 2 ^ a) = Z.log2 m + a.
Proof. intros. rewrite Z.log2_mul_pow2 by lia. lia. Qed.

Lemma pow2_pos (a : Z) : 0 <= a -> 0 < 2 ^ a.
Proof. intros. apply Z.pow_pos_nonneg; lia. Qed.

Lemma log2_bounds (m : Z) : 0 < m -> 2 ^ Z.log2 m <= m < 2 ^ (Z.log2 m + 1).
Proof. intros H. pose proof (Z.log2_spec m H). unfold Z.succ in *. lia. Qed.

Lemma rne_mant_bounds (m j : Z) : m / 2 ^ j <= rne_mant m j <= m / 2 ^ j + 1.
Proof. unfold rne_mant. destruct (_ || _); lia. Qed.

Lemma rne_mant_0 (m : Z) : rne_mant m 0 = m.
Proof.
  unfold rne_mant. rewrite Z.pow_0_r, Z.div_1_r, Z.mod_1_r. reflexivity.
Qed.

(** Scaling the number and the shift together does not change the
    rounded mantissa. *)
Lemma rne_mant_scale (m j a : Z) :
  0 <= j -> 0 <= a -> rne_mant (m * 2 ^ a) (j + a) = rne_mant m j.
Proof.
  intros Hj Ha. unfold rne_mant.
  pose proof (pow2_pos j Hj) as Hpj. pose proof (pow2_pos a Ha) as Hpa.
  rewrite Z.pow_add_r by lia.
  rewrite Z.div_mul_cancel_r by lia.
  rewrite Zmult_mod_distr_r.
  pose proof (Z.mod_pos_bound m (2 ^ j) Hpj) as Hb.
  set (q := m / 2 ^ j). set (rem := m mod 2 ^ j) in *.
  replace (2 ^ j * 2 ^ a <? 2 * (rem * 2 ^ a)) with (2 ^ j <? 2 * rem).
  2:{ destruct (Z.ltb_spec (2 ^ j) (2 * rem)); symmetry; [apply Z.ltb_lt|apply Z.ltb_ge]; nia. }
  replace (2 ^ j * 2 ^ a =? 2 * (rem * 2 ^ a)) with (2 ^ j =? 2 * rem).
  2:{ destruct (Z.eqb_spec (2 ^ j) (2 * rem)); symmetry; [apply Z.eqb_eq|apply Z.eqb_neq]; nia. }
  reflexivity.
Qed.

(** The last step of the rounding: the rounded mantissa is renormalised
    when it has grown to 54 bits, and the exponent is checked. *)
Lemma finish_spec (s : bool) (m1 fe : Z) :
  0 < m1 -> m1 <= 2 ^ 53 -> -1074 <= fe -> (fe = -1074 \/ 2 ^ 52 <= m1) ->
  (let '(mrs, e) := shr_fexp prec emax m1 fe loc_Exact in
   match shr_m mrs with
   | 0 => S754_zero s
   | Zpos m => if e <=? emax - prec then S754_finite s m e else S754_infinity s
   | Zneg _ => S754_nan
   end) = finite_of s (m1 * 2 ^ (fe + 1074)).
Proof.
  intros Hpos Hle Hfe Hnorm.
  unfold shr_fexp, finite_of, ulp_exp. cbn [shr_record_of_loc].
  rewrite Zdigits2_log2 by lia. rewrite log2_scale by lia.
  unfold fexp, SpecFloat.emin, prec, emax.
  pose proof (log2_bounds m1 Hpos) as Hlog.
  pose proof (Z.log2_nonneg m1) as Hnn.
  destruct (Z.eq_dec m1 (2 ^ 53)) as [->|Hne].
  - (* carry *)
    change (Z.log2 (2 ^ 53)) with 53.
    replace (Z.max (53 + 1 + fe - 53) (3 - 1024 - 53) - fe) with 1 by lia.
    rewrite shr_spec by lia.
    replace (Z.max (53 + (fe + 1074) + 1 - 53) 0) with (fe + 1074 + 1) by lia.
    rewrite (Z.pow_add_r 2 (fe + 1074) 1) by lia.
    replace (2 ^ 53 * 2 ^ (fe + 1074) / (2 ^ (fe + 1074) * 2 ^ 1)) with (2 ^ 52).
    2:{ pose proof (pow2_pos (fe + 1074) ltac:(lia)).
        rewrite (Z.mul_comm (2 ^ (fe + 1074)) (2 ^ 1)).
        rewrite Z.div_mul_cancel_r by lia. reflexivity. }
    cbn [shr_state shr_m]. change (2 ^ 53 / 2 ^ 1) with (2 ^ 52). 
    change (2 ^ 52) with (Zpos (2 ^ 52)%positive).
    replace (fe + 1074 + 1 - 1074) with (fe + 1) by lia.
    replace (1024 - 53) with 971 by lia. reflexivity.
  - assert (Hlt : m1 < 2 ^ 53) by lia.
    assert (Hd : Z.log2 m1 + 1 <= 53).
    { apply Z.log2_lt_pow2 in Hlt; lia. }
    assert (Hshift : Z.max (Z.log2 m1 + 1 + fe - 53) (3 - 1024 - 53) = fe).
    { destruct Hnorm as [->|H52]; [lia|].
      assert (52 <= Z.log2 m1) by (apply Z.log2_le_pow2; lia). lia. }
    rewrite Hshift, Z.sub_diag. cbn [shr shr_m].
    replace (Z.max (Z.log2 m1 + (fe + 1074) + 1 - 53) 0) with (fe + 1074) by lia.
    rewrite Z.div_mul by (pose proof (pow2_pos (fe + 1074)); lia).
    destruct m1; try lia.
    replace (fe + 1074 - 1074) with fe by lia.
    replace (1024 - 53) with 971 by lia. reflexivity.
Qed.

(** Rounding an aligned mantissa. *)
Lemma binary_round_aux_spec (s : bool) (mz : positive) (ez : Z) :
  -1074 <= ez -> ez <= fexp prec emax (Zpos (digits2_pos mz) + ez) ->
  binary_round_aux prec emax s (Zpos mz) ez loc_Exact
  = finite_of s (rne (Zpos mz * 2 ^ (ez + 1074))).
Proof.
  intros Hez Hal. rewrite digits2_pos_log2 in Hal.
  unfold binary_round_aux.
  unfold shr_fexp at 1. cbn [shr_record_of_loc Zdigits2]. rewrite digits2_pos_log2.
  unfold fexp, SpecFloat.emin, prec, emax in Hal |- *.
  pose proof (log2_bounds (Zpos mz) ltac:(lia)) as Hlog.
  pose proof (Z.log2_nonneg (Zpos mz)) as Hnn.
  set (dM := Z.log2 (Zpos mz) + 1) in *.
  set (fe := Z.max (dM + ez - 53) (3 - 1024 - 53)) in *.
  set (j := fe - ez).
  assert (Hj : 0 <= j) by (unfold j; lia).
  rewrite shr_spec by lia.
  rewrite round_shr_state by lia.
  replace (ez + j) with fe by (unfold j; lia).
  pose proof (rne_mant_bounds (Zpos mz) j) as Hm1.
  assert (Hk : ulp_exp (Zpos mz * 2 ^ (ez + 1074)) = j + (ez + 1074)).
  { unfold ulp_exp. rewrite log2_scale by lia. unfold j, fe, dM. lia. }
  assert (Hrne : rne (Zpos mz * 2 ^ (ez + 1074))
                 = rne_mant (Zpos mz) j * 2 ^ (fe + 1074)).
  { unfold rne. rewrite Hk, rne_mant_scale by lia. f_equal. f_equal. unfold j. lia. }
  rewrite Hrne.
  pose proof (pow2_pos j Hj) as Hpj.
  assert (Hfacts : 0 < rne_mant (Zpos mz) j <= 2 ^ 53
                   /\ (fe = -1074 \/ 2 ^ 52 <= rne_mant (Zpos mz) j)).
  { destruct (Z.eq_dec j 0) as [Hj0|Hj0].
    - rewrite Hj0, rne_mant_0.
      assert (dM <= 53) by (unfold j in Hj0; lia).
      assert (Zpos mz < 2 ^ 53).
      { eapply Z.lt_le_trans; [apply Hlog|]. apply Z.pow_le_mono_r; lia. }
      split; [lia|].
      destruct (Z.eq_dec fe (-1074)); [auto|right].
      assert (dM = 53) by (unfold j in Hj0; lia).
      replace 52 with (Z.log2 (Zpos mz)) by lia. lia.
    - assert (Hd : dM = 53 + j) by (unfold j in *; lia).
      replace (Z.log2 (Zpos mz)) with (52 + j) in Hlog by lia.
      rewrite Hd in Hlog.
      rewrite !Z.pow_add_r in Hlog by lia.
      assert (2 ^ 52 <= Zpos mz / 2 ^ j) by (apply Z.div_le_lower_bound; lia).
      assert (Zpos mz / 2 ^ j < 2 ^ 53) by (apply Z.div_lt_upper_bound; lia).
      split; [lia|right; lia]. }
  destruct Hfacts as [[Hpos Hle] Hnorm].
  apply finish_spec; try assumption. unfold fe. lia.
Qed.

Lemma binary_round_spec (s : bool) (p : positive) (e : Z) :
  -1074 <= e ->
  binary_round prec emax s p e = finite_of s (rne (Zpos p * 2 ^ (e + 1074))).
Proof.
  intros He. unfold binary_round, shl_align.
  pose proof (digits2_pos_log2 p) as Hd.
  pose proof (Z.log2_nonneg (Zpos p)) as Hnn.
  destruct (fexp prec emax (Zpos (digits2_pos p) + e) - e) as [|d|d] eqn:Hsub.
  - apply binary_round_aux_spec; lia.
  - apply binary_round_aux_spec; lia.
  - assert (Hfe : fexp prec emax (Zpos (digits2_pos p) + e) = e - Zpos d) by lia.
    assert (Hfe' : -1074 <= e - Zpos d).
    { rewrite <- Hfe. unfold fexp, SpecFloat.emin, prec, emax. lia. }
    rewrite Hfe.
    rewrite binary_round_aux_spec.
    + f_equal. f_equal. rewrite pos_iter_xO.
      rewrite <- Z.mul_assoc, <- Z.pow_add_r by lia. f_equal. f_equal. lia.
    + lia.
    + rewrite digits2_pos_log2, pos_iter_xO, log2_scale by lia.
      rewrite Hd in Hfe.
      replace (Z.log2 (Zpos p) + Zpos d + 1 + (e - Zpos d)) with (Z.log2 (Zpos p) + 1 + e) by lia.
      lia.
Qed.

(** What [SpecFloat] computes when it normalises [m * 2^e] is the float
    nearest to that number, ties to even. *)
Theorem binary_normalize_spec (m e : Z) :
  -1074 <= e -> binary_normalize prec emax m e false = Rz (m * 2 ^ (e + 1074)).
Proof.
  intros He. pose proof (pow2_pos (e + 1074) ltac:(lia)) as Hp.
  destruct m as [|p|p]; simpl binary_normalize.
  - reflexivity.
  - rewrite binary_round_spec by lia.
    destruct (Zpos p * 2 ^ (e + 1074)) eqn:Hn; try lia. reflexivity.
  - rewrite binary_round_spec by lia.
    destruct (Zneg p * 2 ^ (e + 1074)) eqn:Hn; try lia.
    unfold Rz. do 2 f_equal. lia.
Qed.

Lemma normal_ulp_exp (m k : Z) : normal m k -> ulp_exp (m * 2 ^ k) = k.
Proof.
  intros ((Hpos & Hlt) & Hk & Hn). unfold ulp_exp. rewrite log2_scale by lia.
  assert (Z.log2 m < 53) by (apply Z.log2_lt_pow2; lia).
  pose proof (Z.log2_nonneg m).
  destruct Hn as [->|H52]; [lia|].
  assert (52 <= Z.log2 m) by (apply Z.log2_le_pow2; lia). lia.
Qed.

Lemma normal_div (m k : Z) : 0 <= k -> m * 2 ^ k / 2 ^ k = m.
Proof. intros. apply Z.div_mul. pose proof (pow2_pos k). lia. Qed.

Lemma normal_mod (m k : Z) : 0 <= k -> (m * 2 ^ k) mod 2 ^ k = 0.
Proof. intros. apply Z.mod_mul. pose proof (pow2_pos k). lia. Qed.

(** A number in normal form is its own rounding. *)
Lemma rne_normal (m k : Z) : normal m k -> rne (m * 2 ^ k) = m * 2 ^ k.
Proof.
  intros H. unfold rne, rne_mant. rewrite (normal_ulp_exp m k H).
  destruct H as (Hm & Hk & _). pose proof (pow2_pos k Hk).
  rewrite normal_div, normal_mod by lia.
  replace (2 ^ k <? 2 * 0) with false by (symmetry; apply Z.ltb_ge; lia).
  replace (2 ^ k =? 2 * 0) with false by (symmetry; apply Z.eqb_neq; lia).
  reflexivity.
Qed.

Lemma finite_of_normal (s : bool) (m k : Z) :
  normal m k ->
  finite_of s (m * 2 ^ k)
  = if k - 1074 <=? 971 then S754_finite s (Z.to_pos m) (k - 1074) else S754_infinity s.
Proof.
  intros H. unfold finite_of. rewrite (normal_ulp_exp m k H).
  destruct H as ((Hpos & _) & Hk & _). rewrite normal_div by lia.
  destruct m; try lia. reflexivity.
Qed.

(** Every rounding is in normal form. *)
Lemma rne_normal_form (n : Z) :
  0 < n -> exists m k, normal m k /\ rne n = m * 2 ^ k.
Proof.
  intros Hn. unfold rne.
  pose proof (log2_bounds n Hn) as Hlog. pose proof (Z.log2_nonneg n) as Hnn.
  set (k := ulp_exp n).
  assert (Hk : k = Z.max (Z.log2 n + 1 - 53) 0) by reflexivity.
  assert (Hk0 : 0 <= k) by lia.
  pose proof (pow2_pos k Hk0) as Hpk.
  pose proof (rne_mant_bounds n k) as Hb.
  destruct (Z.eq_dec k 0) as [Hz|Hz].
  - exists n, 0. rewrite Hz, rne_mant_0. split; [|reflexivity].
    split; [|split; [lia|auto]]. split; [lia|].
    eapply Z.lt_le_trans; [apply Hlog|]. apply Z.pow_le_mono_r; lia.
  - assert (Hd : Z.log2 n = 52 + k) by lia.
    rewrite Hd in Hlog. replace (52 + k + 1) with (53 + k) in Hlog by lia.
    rewrite !Z.pow_add_r in Hlog by lia.
    assert (2 ^ 52 <= n / 2 ^ k) by (apply Z.div_le_lower_bound; lia).
    assert (n / 2 ^ k < 2 ^ 53) by (apply Z.div_lt_upper_bound; lia).
    destruct (Z.eq_dec (rne_mant n k) (2 ^ 53)) as [He|He].
    + exists (2 ^ 52), (k + 1). split.
      * split; [lia|]. split; [lia|right; lia].
      * rewrite He, Z.pow_add_r by lia. lia.
    + exists (rne_mant n k), k. split; [|reflexivity].
      split; [lia|]. split; [lia|right; lia].
Qed.

(** The valid finite floats are the normal forms within range. *)
Lemma bounded_normal (m : positive) (e : Z) :
  bounded prec emax m e = true -> normal (Zpos m) (e + 1074) /\ e <= 971.
Proof.
  unfold bounded, canonical_mantissa. rewrite andb_true_iff, Z.eqb_eq, Z.leb_le.
  rewrite digits2_pos_log2. unfold fexp, SpecFloat.emin, prec, emax.
  intros [Hc He].
  pose proof (log2_bounds (Zpos m) ltac:(lia)) as Hlog.
  pose proof (Z.log2_nonneg (Zpos m)) as Hnn.
  split; [|lia]. split; [|split; [lia|]].
  - split; [lia|]. eapply Z.lt_le_trans; [apply Hlog|]. apply Z.pow_le_mono_r; lia.
  - destruct (Z.eq_dec (e + 1074) 0); [auto|right].
    assert (Z.log2 (Zpos m) = 52) as <- by lia. lia.
Qed.

Lemma normal_bounded (m : positive) (k : Z) :
  normal (Zpos m) k -> k - 1074 <= 971 -> bounded prec emax m (k - 1074) = true.
Proof.
  intros ((Hp & Hl) & Hk & Hn) He.
  unfold bounded, canonical_mantissa. rewrite andb_true_iff, Z.eqb_eq, Z.leb_le.
  rewrite digits2_pos_log2. unfold fexp, SpecFloat.emin, prec, emax.
  assert (Z.log2 (Zpos m) < 53) by (apply Z.log2_lt_pow2; lia).
  pose proof (Z.log2_nonneg (Zpos m)).
  split; [|lia].
  destruct Hn as [->|H52]; [lia|].
  assert (52 <= Z.log2 (Zpos m)) by (apply Z.log2_le_pow2; lia). lia.
Qed.

Lemma top_large : 2 ^ 2098 < top.
Proof. reflexivity. Qed.

(** The float made of a rounded magnitude: valid, not a NaN, and ordered
    as the clamped magnitude. *)
Lemma finite_of_rne (s : bool) (n : Z) :
  0 < n ->
  valid_binary (finite_of s (rne n)) = true
  /\ is_nan_sf (finite_of s (rne n)) = false
  /\ SFord (finite_of s (rne n)) = cond_Zopp s (clamp (rne n)).
Proof.
  intros Hn. destruct (rne_normal_form n Hn) as (m & k & Hnorm & ->).
  rewrite finite_of_normal by exact Hnorm.
  pose proof Hnorm as ((Hp & Hl) & Hk & Hn52).
  pose proof (pow2_pos k Hk) as Hpk.
  unfold clamp.
  destruct (Z.leb_spec (k - 1074) 971) as [He|He].
  - assert (Hm : Zpos (Z.to_pos m) = m) by (apply Z2Pos.id; lia).
    cbn [valid_binary is_nan_sf SFord SFval].
    split; [apply normal_bounded; [rewrite Hm; exact Hnorm | exact He]|].
    split; [reflexivity|].
    rewrite Hm. replace (k - 1074 + 1074) with k by lia.
    assert (2 ^ k <= 2 ^ 2045) by (apply Z.pow_le_mono_r; lia).
    replace (m * 2 ^ k <? 2 ^ 2098) with true; [reflexivity|].
    symmetry. apply Z.ltb_lt. change (2 ^ 2098) with (2 ^ 53 * 2 ^ 2045). nia.
  - cbn [valid_binary is_nan_sf SFord]. split; [reflexivity|]. split; [reflexivity|].
    assert (2 ^ 2046 <= 2 ^ k) by (apply Z.pow_le_mono_r; lia).
    replace (m * 2 ^ k <? 2 ^ 2098) with false; [reflexivity|].
    symmetry. apply Z.ltb_ge. change (2 ^ 2098) with (2 ^ 52 * 2 ^ 2046).
    destruct Hn52; [lia|nia].
Qed.

Lemma Rz_props (n : Z) :
  valid_binary (Rz n) = true /\ is_nan_sf (Rz n) = false /\ SFord (Rz n) = ordR n.
Proof.
  destruct n as [|p|p]; cbn [Rz ordR].
  - auto.
  - apply (finite_of_rne false). lia.
  - apply (finite_of_rne true (Zpos p)). lia.
Qed.

(** The rounding on integers, run against [SpecFloat]. *)
Example round_carry :
  binary_normalize prec emax (2 ^ 54 - 1) 970 false = Rz ((2 ^ 54 - 1) * 2 ^ (970 + 1074)).
Proof. vm_compute. reflexivity. Qed.

Example round_tie_even :
  binary_normalize prec emax (- (2 ^ 53 + 1)) 0 false = Rz (- (2 ^ 53 + 1) * 2 ^ 1074).
Proof. vm_compute. reflexivity. Qed.

(** *** Integers that a float holds exactly *)

(** The conversion of an integer is the float nearest to it. *)
Lemma Z2F_spec (z : Z) : Prim2SF (Py.Z2F z) = Rz (z * 2 ^ 1074).
Proof.
  unfold Py.Z2F. rewrite binary_normalize_spec by lia. cbn [Z.add].
  apply Prim2SF_SF2Prim, Rz_props.
Qed.

(** The integers up to 2^53 are floats. *)
Lemma small_int_normal (a : Z) :
  0 < a <= 2 ^ 53 -> exists m k, normal m k /\ a * 2 ^ 1074 = m * 2 ^ k /\ k <= 1075.
Proof.
  intros Ha. destruct (Z.eq_dec a (2 ^ 53)) as [->|Hne].
  - exists (2 ^ 52), 1075. split; [|split; [reflexivity|lia]].
    split; [split; reflexivity|]. split; [lia|right; lia].
  - pose proof (log2_bounds a ltac:(lia)) as Hlog. pose proof (Z.log2_nonneg a) as Hnn.
    assert (Hl : Z.log2 a < 53) by (apply Z.log2_lt_pow2; lia).
    set (j := 52 - Z.log2 a).
    pose proof (pow2_pos j ltac:(unfold j; lia)) as Hpj.
    exists (a * 2 ^ j), (1074 - j). split; [|split].
    + assert (H52 : 2 ^ 52 = 2 ^ Z.log2 a * 2 ^ j).
      { rewrite <- Z.pow_add_r by (unfold j; lia). f_equal. unfold j. lia. }
      assert (H53 : 2 ^ 53 = 2 ^ (Z.log2 a + 1) * 2 ^ j).
      { rewrite <- Z.pow_add_r by (unfold j; lia). f_equal. unfold j. lia. }
      split; [|split; [unfold j; lia|right]].
      * rewrite H53. split; [nia|]. apply Z.mul_lt_mono_pos_r; lia.
      * rewrite H52. apply Z.mul_le_mono_nonneg_r; lia.
    + rewrite <- Z.mul_assoc, <- Z.pow_add_r by (unfold j; lia). do 2 f_equal. lia.
    + unfold j. lia.
Qed.

Lemma clamp_small (m k : Z) : normal m k -> k <= 1075 -> clamp (m * 2 ^ k) = m * 2 ^ k.
Proof.
  intros ((Hp & Hl) & Hk & _) Hk'. unfold clamp.
  replace (m * 2 ^ k <? 2 ^ 2098) with true; [reflexivity|].
  symmetry. apply Z.ltb_lt.
  assert (2 ^ k <= 2 ^ 1075) by (apply Z.pow_le_mono_r; lia).
  pose proof (pow2_pos k Hk).
  change (2 ^ 2098) with (2 ^ 53 * 2 ^ 2045).
  assert (2 ^ 1075 <= 2 ^ 2045) by (apply Z.pow_le_mono_r; lia). nia.
Qed.

Lemma ordR_pos (n : Z) : 0 < n -> ordR n = clamp (rne n).
Proof. destruct n; try lia. reflexivity. Qed.

Lemma ordR_neg (n : Z) : n < 0 -> ordR n = - clamp (rne (- n)).
Proof. destruct n; try lia. reflexivity. Qed.

Lemma ordR_small_int (z : Z) : Z.abs z <= 2 ^ 53 -> ordR (z * 2 ^ 1074) = z * 2 ^ 1074.
Proof.
  intros Hz. pose proof (pow2_pos 1074 ltac:(lia)) as Hp.
  destruct (Z.lt_trichotomy z 0) as [Hneg|[->|Hpos]].
  - destruct (small_int_normal (- z) ltac:(lia)) as (m & k & Hn & He & Hk).
    rewrite ordR_neg by nia.
    replace (- (z * 2 ^ 1074)) with (- z * 2 ^ 1074) by lia.
    rewrite He, (rne_normal m k Hn), (clamp_small m k Hn Hk). lia.
  - reflexivity.
  - destruct (small_int_normal z ltac:(lia)) as (m & k & Hn & He & Hk).
    rewrite ordR_pos by nia.
    rewrite He, (rne_normal m k Hn). apply clamp_small; assumption.
Qed.

Lemma top_above_small_int (z : Z) : Z.abs z <= 2 ^ 53 -> Z.abs (z * 2 ^ 1074) < top.
Proof.
  intros Hz. rewrite Z.abs_mul, (Z.abs_eq (2 ^ 1074)) by (pose proof (pow2_pos 1074); lia).
  pose proof top_large. pose proof (pow2_pos 1074 ltac:(lia)).
  assert (2 ^ 53 * 2 ^ 1074 < 2 ^ 2098) by reflexivity. nia.
Qed.

End Rounding.

Module Props.
Import Py Bot Ledger Binary64 Records Rounding.

(** ** Reading typed fields *)

Lemma get_money_value (d : dict) (k : string) (n : num) :
  get_money d k = Some n -> dict_get d k (VInt 0) = of_num n.
Proof.
  unfold get_money. destruct (dict_get d k (VInt 0)); intros H; inversion H; reflexivity.
Qed.

Lemma get_count_value (d : dict) (k : string) (z : Z) :
  get_count d k = Some z -> dict_get d k (VInt 0) = VInt z.
Proof.
  unfold get_count. destruct (dict_get d k (VInt 0)); intros H; inversion H; reflexivity.
Qed.

Lemma get_flag_value (d : dict) (k : string) (b : bool) :
  get_flag d k = Some b -> dict_get d k (VBool false) = VBool b.
Proof.
  unfold get_flag. destruct (dict_get d k (VBool false)); intros H; inversion H; reflexivity.
Qed.

(** The fields the ledger reads, out of a well-typed record. *)
Lemma account_of_fields (d : dict) (a : Account) :
  account_of d = Some a ->
  dict_get d "balance" (VInt 0) = of_num (acc_balance a)
  /\ dict_get d "referrals" (VInt 0) = VInt (acc_referrals a)
  /\ dict_get d "referralEarnings" (VInt 0) = of_num (acc_referralEarnings a)
  /\ dict_get d "totalEarnings" (VInt 0) = of_num (acc_totalEarnings a)
  /\ dict_get d "totalWithdrawals" (VInt 0) = of_num (acc_totalWithdrawals a)
  /\ dict_get d "withdrawalPending" (VBool false) = VBool (acc_withdrawalPending a).
Proof.
  unfold account_of. intros H. simplify_option_eq. simpl.
  repeat split;
    auto using get_money_value, get_count_value, get_flag_value.
Qed.

Lemma as_num_of_num (n : num) : as_num (of_num n) = Some n.
Proof. destruct n; reflexivity. Qed.

Lemma py_eq_num (a b : num) : py_eq (of_num a) (of_num b) = num_eqb a b.
Proof. unfold py_eq. rewrite !as_num_of_num. reflexivity. Qed.

Lemma py_lt_num (a b : num) : py_lt (of_num a) (of_num b) = Ok (num_ltb a b).
Proof. unfold py_lt. rewrite !as_num_of_num. reflexivity. Qed.

Lemma num_ltb_int (x y : Z) : num_ltb (NInt x) (NInt y) = (x <? y).
Proof. unfold num_ltb, Z.ltb. simpl. destruct (x ?= y); reflexivity. Qed.

(** [60 - balance] cannot raise: 60 is a float, whatever [balance] is. *)
Lemma py_sub_from_60 (b : num) :
  py_sub (VInt 60) (of_num b) = Ok (of_num (amount_sub (NInt 60) b)).
Proof. destruct b; reflexivity. Qed.

Lemma num_cmp_float_int (f : float) (z : Z) :
  num_cmp (NFloat f) (NInt z) = option_map CompOpp (num_cmp (NInt z) (NFloat f)).
Proof. reflexivity. Qed.

(** A positive amount is not equal to 0. *)
Lemma num_positive_not_zero (n : num) :
  num_ltb (NInt 0) n = true -> num_eqb n (NInt 0) = false.
Proof.
  unfold num_ltb, num_eqb. destruct n as [z|f].
  - destruct z; simpl; congruence.
  - rewrite num_cmp_float_int.
    destruct (num_cmp (NInt 0) (NFloat f)) as [[]|]; simpl; congruence.
Qed.

(** A number equal to another is not below it. *)
Lemma num_eqb_not_ltb (a b : num) : num_eqb a b = true -> num_ltb a b = false.
Proof.
  unfold num_eqb, num_ltb. destruct (num_cmp a b) as [[]|]; congruence.
Qed.

(** ** Withdrawal eligibility *)

(** The rules of the command refine [CheckEligibility]. *)
Lemma withdraw_rules_refine (d : dict) (a : Account) :
  account_of d = Some a ->
  withdraw_rules d = Ok (render a (CheckEligibility a source_config)).
Proof.
  intros Ha.
  destruct (account_of_fields d a Ha) as (Hb & Hr & _ & _ & Hw & Hp).
  unfold withdraw_rules, CheckEligibility. rewrite Hb, Hr, Hw, Hp. simpl truthy.
  destruct (acc_withdrawalPending a); [reflexivity|].
  change (VInt 0) with (of_num (NInt 0)). rewrite py_eq_num.
  change (VInt (acc_referrals a)) with (of_num (NInt (acc_referrals a))).
  change (VInt 15) with (of_num (NInt 15)). rewrite py_lt_num, num_ltb_int.
  simpl firstWithdrawalMinReferrals. simpl minWithdrawalBalance.
  assert (Hbal : (low ← py_lt (of_num (acc_balance a)) (VInt 60);
                  if low : bool
                  then need ← py_sub (VInt 60) (of_num (acc_balance a));
                       Ok (ReplyInsufficientBalance (of_num (acc_balance a)) need)
                  else Ok (ReplyCanWithdraw (of_num (acc_balance a))
                             (of_num (NInt (acc_referrals a)))))
                 = Ok (render a
                         (if num_ltb (acc_balance a) (NInt 60)
                          then NeedsBalance (amount_sub (NInt 60) (acc_balance a))
                          else Eligible))).
  { change (VInt 60) with (of_num (NInt 60)). rewrite py_lt_num. simpl.
    destruct (num_ltb (acc_balance a) (NInt 60)); simpl; [|reflexivity].
    change (of_num (NInt 60)) with (VInt 60). rewrite py_sub_from_60. reflexivity. }
  destruct (num_eqb (acc_totalWithdrawals a) (NInt 0)); simpl.
  - destruct (acc_referrals a <? 15); simpl; [reflexivity|]. exact Hbal.
  - exact Hbal.
Qed.

(** C1: on every well-typed account record the rules of the withdraw
    command are the four rules of [CheckEligibility], tried in their
    order: pending first, then the referral gate of a first withdrawal,
    then the balance threshold, else eligible.  An earlier rule shadows
    the later ones: a pending account is answered [Pending] whatever its
    other fields, and an account that has withdrawn before is never
    answered with the referral gate. *)
Theorem check_eligibility_order (d : dict) (a : Account) :
  account_of d = Some a ->
  withdraw_rules d = Ok (render a (CheckEligibility a source_config))
  /\ (acc_withdrawalPending a = true -> withdraw_rules d = Ok ReplyWithdrawalPending)
  /\ (num_ltb (NInt 0) (acc_totalWithdrawals a) = true ->
      forall remaining referrals,
        withdraw_rules d <> Ok (ReplyCannotWithdraw remaining referrals)).
Proof.
  intros Ha. pose proof (withdraw_rules_refine d a Ha) as Hmain.
  split; [exact Hmain|]. split.
  - intros Hpend. rewrite Hmain. unfold CheckEligibility. rewrite Hpend. reflexivity.
  - intros Hpos remaining referrals. rewrite Hmain. unfold CheckEligibility.
    rewrite (num_positive_not_zero _ Hpos). simpl.
    destruct (acc_withdrawalPending a); simpl; [discriminate|].
    destruct (num_ltb (acc_balance a) (NInt 60)); simpl; discriminate.
Qed.

Lemma check_eligibility_order_witness :
  account_of (sample_record 10 (VInt 100) true) = Some (sample_account 10 (NInt 100) true)
  /\ withdraw_rules (sample_record 10 (VInt 100) true) = Ok ReplyWithdrawalPending.
Proof.
  split; [reflexivity|].
  apply (check_eligibility_order (sample_record 10 (VInt 100) true)
           (sample_account 10 (NInt 100) true)); reflexivity.
Defined.

(** The scenarios of the specification, run on the code. *)
Example scenario_needs_referrals :
  withdraw_rules (sample_record 10 (VInt 100) false)
  = Ok (ReplyCannotWithdraw (VInt 5) (VInt 10)).
Proof. reflexivity. Qed.

Example scenario_needs_balance :
  withdraw_rules (sample_record 15 (VInt 10) false)
  = Ok (ReplyInsufficientBalance (VInt 10) (VInt 50)).
Proof. reflexivity. Qed.

Example scenario_needs_balance_float :
  withdraw_rules (sample_record 15 (VFloat 10) false)
  = Ok (ReplyInsufficientBalance (VFloat 10) (VFloat 50)).
Proof. reflexivity. Qed.

(** C2: at the boundary, an account that has not withdrawn yet, has 15
    referrals, no pending withdrawal and a balance equal to 60 (as an
    integer or as a float) is eligible: the balance test is a strict
    comparison. *)
Theorem boundary_balance_eligible (d : dict) (a : Account) :
  account_of d = Some a ->
  acc_withdrawalPending a = false ->
  num_eqb (acc_totalWithdrawals a) (NInt 0) = true ->
  acc_referrals a = 15 ->
  num_eqb (acc_balance a) (NInt 60) = true ->
  CheckEligibility a source_config = Eligible
  /\ withdraw_rules d = Ok (ReplyCanWithdraw (of_num (acc_balance a)) (VInt 15)).
Proof.
  intros Ha Hp Hw Hr Hb.
  assert (He : CheckEligibility a source_config = Eligible).
  { unfold CheckEligibility. rewrite Hp, Hw, Hr. simpl.
    rewrite (num_eqb_not_ltb _ _ Hb). reflexivity. }
  split; [exact He|].
  rewrite (withdraw_rules_refine d a Ha), He. simpl. rewrite Hr. reflexivity.
Qed.

Lemma boundary_balance_eligible_witness :
  withdraw_rules (sample_record 15 (VFloat 60) false)
  = Ok (ReplyCanWithdraw (VFloat 60) (VInt 15)).
Proof.
  apply (boundary_balance_eligible (sample_record 15 (VFloat 60) false)
           (sample_account 15 (NFloat 60) false)); reflexivity.
Defined.

(** ** Running the database functions *)

Lemma get_user_data_run net tid w :
  get_user_data net tid w =
  match net (calls w) with
  | Some _ => (Ok (users w !! user_key tid), tick w)
  | None => (Ok None, log (LogErrorGettingUser NetworkError) (tick w))
  end.
Proof.
  unfold get_user_data, try_except, db_get_user, remote, mbind, M_mbind, bind, print, ret.
  destruct (net (calls w)); reflexivity.
Qed.

(** The [try] block of [handle_referral] ends before its first remote
    call: on the path check, or on the entry that is to be written. *)
Lemma handle_referral_run net (r u : string) (tid : Z) (w : world) :
  handle_referral net r u tid w
  = (Ok tt, log (LogErrorHandlingReferral (referral_error r u)) w).
Proof.
  unfold handle_referral, save_referral, try_except, mbind, M_mbind, bind, lift, print,
    db_reference, referral_error.
  destruct (valid_path ("referrals/" +:+ r +:+ "/" +:+ u)); reflexivity.
Qed.

Lemma handle_referral_returns net r u tid w : fst (handle_referral net r u tid w) = Ok tt.
Proof. rewrite handle_referral_run. reflexivity. Qed.

(** The [try] block of [create_user] ends on [user_data], before the
    write. *)
Lemma create_user_run net tid un fn ln ref (w : world) :
  create_user net tid un fn ln ref w = (Ok None, log (LogErrorCreatingUser AttributeError) w).
Proof. reflexivity. Qed.

Lemma create_user_returns net tid un fn ln ref w :
  exists o, fst (create_user net tid un fn ln ref w) = Ok o.
Proof. rewrite create_user_run. cbn [fst]. eauto. Qed.

Lemma referral_run_run net r (ids : list Z) (w : world) :
  let w' := snd (referral_run net r ids w) in
  fst (referral_run net r ids w) = Ok tt
  /\ users w' = users w /\ referrals w' = referrals w /\ calls w' = calls w
  /\ length (console w') = (length (console w) + length ids)%nat.
Proof.
  revert w. induction ids as [|t ids IH]; intros w; cbn [referral_run].
  - cbn. repeat split. lia.
  - unfold mbind, M_mbind, bind. rewrite handle_referral_run.
    destruct (IH (log (LogErrorHandlingReferral (referral_error r (user_key t))) w))
      as (Hf & Hu & Hr & Hc & Hl).
    cbv zeta. repeat split; try assumption.
    rewrite Hl. unfold log. cbn [console length]. rewrite length_app. cbn [length]. lia.
Qed.

Lemma referral_wanted_self uid : referral_wanted (Some uid) uid = None.
Proof.
  unfold referral_wanted. rewrite String.eqb_refl, andb_false_r. reflexivity.
Qed.

(** ** The reward ledger, as the code runs *)


(** C4: [N] referrals in sequence for a referrer that has a record, with
    whatever network: the record of the referrer is as it was, with 0
    referrals and a balance of 0, no remote call is made, and one error
    is printed for each referral. *)
Theorem referral_run_rewards_nothing net (new_telegram_ids : list Z) :
  let w' := snd (referral_run net "tg_7" new_telegram_ids fresh_world) in
  users w' !! "tg_7" = Some first_record
  /\ dict_get first_record "referrals" (VInt 0) = VInt 0
  /\ dict_get first_record "balance" (VInt 0) = VInt 0
  /\ calls w' = 0%nat
  /\ length (console w') = length new_telegram_ids.
Proof.
  destruct (referral_run_run net "tg_7" new_telegram_ids fresh_world)
    as (_ & Hu & _ & Hc & Hl).
  cbv zeta. rewrite Hu, Hc, Hl. repeat split.
Qed.

(** C5: a creation whose referrer is the new user's own key creates no
    ledger entry and changes no account; it is the run of the creation
    without a referrer, and prints nothing about a referral.  The guard
    of [create_user] is false for the user's own key. *)
Theorem self_referral_ignored net tid un fn ln w :
  let uid := user_key tid in
  let w' := snd (create_user net tid un fn ln (Some uid) w) in
  referral_wanted (Some uid) uid = None
  /\ create_user net tid un fn ln (Some uid) w = create_user net tid un fn ln None w
  /\ referrals w' = referrals w
  /\ users w' = users w
  /\ calls w' = calls w
  /\ console w' = console w ++ [LogErrorCreatingUser AttributeError].
Proof.
  cbv zeta. rewrite !create_user_run, referral_wanted_self. repeat split.
Qed.

(** C6, as amended: [handle_referral] returns normally, whether or not
    the referrer has a record; no account is created or changed, and no
    call to the store is made, let alone made again. *)
Theorem absent_referrer_no_reward net r u tid w :
  let w' := snd (handle_referral net r u tid w) in
  fst (handle_referral net r u tid w) = Ok tt
  /\ users w' = users w
  /\ calls w' = calls w.
Proof. cbv zeta. rewrite handle_referral_run. repeat split. Qed.

(** C6, as stated: no failure is told to the caller.  For a referrer
    without a record [handle_referral] returns as it does for a referrer
    that has one. *)
Lemma absent_referrer_not_reported :
  users fresh_world !! "tg_9" = None
  /\ fst (handle_referral (up_at 1700) "tg_9" "tg_8" 8 fresh_world) = Ok tt
  /\ fst (handle_referral (up_at 1700) "tg_7" "tg_8" 8 fresh_world) = Ok tt.
Proof. repeat split. Qed.

(** C7: on first contact, with whatever network, [create_user] returns
    [None], stores nothing and prints its error: the record with the
    zeroed counters is never built. *)
Theorem create_user_builds_no_record net :
  create_user net 7 (Some "bob") "Bob" None None empty_world
  = (Ok None, World ∅ ∅ 0 [LogErrorCreatingUser AttributeError]).
Proof. rewrite create_user_run. reflexivity. Qed.

(** C8: a creation with a referrer that has a record, with whatever
    network: the new account is not persisted, [create_user] returns
    [None], the referral is not started (nothing is printed about it),
    and no call to the store is made. *)
Theorem account_not_persisted net :
  let w' := snd (create_user net 8 None "Ann" None (Some "tg_7") fresh_world) in
  referral_wanted (Some "tg_7") (user_key 8) = Some "tg_7"
  /\ fst (create_user net 8 None "Ann" None (Some "tg_7") fresh_world) = Ok None
  /\ users w' !! user_key 8 = None
  /\ users w' = users fresh_world
  /\ referrals w' = ∅
  /\ calls w' = 0%nat
  /\ console w' = [LogErrorCreatingUser AttributeError].
Proof. cbv zeta. rewrite create_user_run. repeat split. Qed.

(** C9: a referral whose referrer has no record, with whatever network:
    no ledger entry is written, and the error is printed.  With a
    referrer whose key holds a character that a path cannot hold, the
    error is the one of the path check. *)
Theorem ledger_entry_not_written net :
  let w' := snd (handle_referral net "tg_9" "tg_8" 8 fresh_world) in
  users fresh_world !! "tg_9" = None
  /\ referrals w' = ∅
  /\ calls w' = 0%nat
  /\ console w' = [LogErrorHandlingReferral AttributeError]
  /\ console (snd (handle_referral net "a.b" "tg_8" 8 fresh_world))
     = [LogErrorHandlingReferral ValueError].
Proof. cbv zeta. rewrite !handle_referral_run. repeat split. Qed.

(** C10: a referral for a referrer whose record has none of the four
    fields, with whatever network: the record is as it was, without the
    fields; nothing is read and nothing is written. *)
Theorem missing_fields_not_filled net :
  let w' := snd (handle_referral net "tg_3" "tg_7" 7 bare_world) in
  users w' !! "tg_3" = Some (mkdict [("userId", VStr "tg_3")])
  /\ referrals w' = ∅
  /\ calls w' = 0%nat
  /\ console w' = [LogErrorHandlingReferral AttributeError].
Proof. cbv zeta. rewrite handle_referral_run. repeat split. Qed.

End Props.

(** ** The database functions *)

Module StoreProps.
Import Py Bot Ledger Binary64 Records Rounding Props.

(** *** The keys of the accounts *)

Lemma user_key_eq (a b : Z) : user_key a = user_key b -> a = b.
Proof.
  unfold user_key. intros H. apply (inj pretty), (inj (String.app "tg_")), H.
Qed.

Lemma valid_path_cons (c : ascii) (s : string) :
  valid_path (String c s) = negb (illegal_path_char c) && valid_path s.
Proof. unfold valid_path. cbn [list_ascii_of_string existsb]. apply negb_orb. Qed.

Lemma valid_path_app (s t : string) :
  valid_path (s +:+ t) = valid_path s && valid_path t.
Proof.
  induction s as [|c s IH].
  - reflexivity.
  - change (String c s +:+ t) with (String c (s +:+ t)).
    rewrite !valid_path_cons, IH. apply andb_assoc.
Qed.

Lemma pretty_N_char_valid (x : N) : illegal_path_char (pretty_N_char x) = false.
Proof.
  unfold pretty_N_char.
  repeat match goal with
         | |- context [match ?y with _ => _ end] => destruct y
         end; reflexivity.
Qed.

Lemma pretty_N_go_valid (x : N) (s : string) :
  valid_path s = true -> valid_path (pretty_N_go x s) = true.
Proof.
  revert s. induction (N.lt_wf_0 x) as [x _ IH]. intros s Hs.
  destruct (N.eq_dec x 0%N) as [->|Hx].
  - rewrite pretty_N_go_0. exact Hs.
  - rewrite pretty_N_go_step by lia. apply IH.
    + apply N.div_lt; lia.
    + rewrite valid_path_cons, pretty_N_char_valid, Hs. reflexivity.
Qed.

Lemma pretty_Z_valid (z : Z) : valid_path (pretty z) = true.
Proof.
  assert (HN : forall n : N, valid_path (pretty n) = true).
  { intros n. unfold pretty, pretty_N. destruct (decide (n = 0%N)); [reflexivity|].
    apply pretty_N_go_valid. reflexivity. }
  destruct z as [|p|p]; [reflexivity|apply HN|].
  change (pretty (Z.neg p)) with ("-" +:+ pretty (N.pos p)).
  rewrite valid_path_app, HN. reflexivity.
Qed.

(** X1: the keys [tg_<id>] of two different Telegram users differ, and
    the path [users/tg_<id>] of every user holds no character that
    [db.reference] refuses: the reads of the commands pass the path
    check. *)
Theorem user_keys_distinct_and_legal (a b : Z) :
  a <> b ->
  user_key a <> user_key b
  /\ db_reference ("users/" +:+ user_key a) = Ok ("users/" +:+ user_key a).
Proof.
  intros Hab. split.
  - intros H. apply Hab, user_key_eq, H.
  - unfold db_reference, user_key.
    rewrite !valid_path_app, pretty_Z_valid. reflexivity.
Qed.

Lemma user_keys_distinct_and_legal_witness :
  user_key 7 <> user_key 8 /\ valid_path ("users/" +:+ user_key (-7)) = true.
Proof.
  split.
  - apply (user_keys_distinct_and_legal 7 8). lia.
  - reflexivity.
Defined.

(** *** What the database functions do *)

(** X2: no exception leaves [get_user_data], [create_user] or
    [handle_referral], whatever the store holds and whichever remote call
    fails: each of them returns. *)
Theorem database_functions_never_raise net tid un fn ln ref r u w :
  (exists o, fst (get_user_data net tid w) = Ok o)
  /\ (exists o, fst (create_user net tid un fn ln ref w) = Ok o)
  /\ fst (handle_referral net r u tid w) = Ok tt.
Proof.
  split; [|split].
  - rewrite get_user_data_run. destruct (net (calls w)); eauto.
  - apply create_user_returns.
  - apply handle_referral_returns.
Qed.

(** X3: [handle_referral] never reaches the store: for every referrer,
    new user and network the accounts and the ledger are as they were,
    no remote call is made, and one line is printed, with [ValueError]
    when the path of the ledger entry holds a character that
    [db.reference] refuses and with [AttributeError] otherwise. *)
Theorem handle_referral_changes_nothing net r u tid w :
  let w' := snd (handle_referral net r u tid w) in
  same_store w w'
  /\ calls w' = calls w
  /\ console w'
     = console w ++ [LogErrorHandlingReferral
                       (if valid_path ("referrals/" +:+ r +:+ "/" +:+ u)
                        then AttributeError else ValueError)].
Proof. cbv zeta. rewrite handle_referral_run. repeat split. Qed.

(** X4: [create_user] never reaches the store: for every user, referrer
    and network it returns [None], the accounts and the ledger are as
    they were, no remote call is made, [handle_referral] is not run, and
    the one line printed is the error of the creation. *)
Theorem create_user_stores_nothing net tid un fn ln ref w :
  let w' := snd (create_user net tid un fn ln ref w) in
  fst (create_user net tid un fn ln ref w) = Ok None
  /\ same_store w w'
  /\ calls w' = calls w
  /\ console w' = console w ++ [LogErrorCreatingUser AttributeError].
Proof. cbv zeta. rewrite create_user_run. repeat split. Qed.

End StoreProps.

(** ** The commands *)

Module CommandProps.
Import Py Bot Ledger Binary64 Records Commands Rounding Props StoreProps.

(** *** Running the commands *)

Lemma with_user_data_run net tid k w :
  with_user_data net tid k w =
  match net (calls w) with
  | Some _ => k (users w !! user_key tid) (tick w)
  | None => k None (log (LogErrorGettingUser NetworkError) (tick w))
  end.
Proof.
  unfold with_user_data. rewrite get_user_data_run. destruct (net (calls w)); reflexivity.
Qed.

Lemma withdraw_command_run net tid w :
  withdraw_command net tid w =
  match net (calls w) with
  | Some _ =>
      if record_truthy (users w !! user_key tid)
      then (withdraw_rules (default ∅ (users w !! user_key tid)), tick w)
      else (Ok ReplyUseStartFirst, tick w)
  | None => (Ok ReplyUseStartFirst, log (LogErrorGettingUser NetworkError) (tick w))
  end.
Proof.
  unfold withdraw_command, mbind, M_mbind, bind. rewrite get_user_data_run.
  destruct (net (calls w)); [|reflexivity].
  destruct (record_truthy (users w !! user_key tid)); reflexivity.
Qed.

Lemma balance_command_store net tid w :
  same_store w (snd (balance_command net tid w)) /\ calls (snd (balance_command net tid w)) = S (calls w).
Proof.
  unfold balance_command. rewrite with_user_data_run.
  destruct (net (calls w)); [destruct (record_truthy _)|]; cbn [record_truthy];
    repeat match goal with
           | |- context [match fmt_2f ?v with _ => _ end] => destruct (fmt_2f v)
           end; repeat split.
Qed.

Lemma referrals_command_store env net tid w :
  same_store w (snd (referrals_command env net tid w))
  /\ calls (snd (referrals_command env net tid w)) = S (calls w).
Proof.
  unfold referrals_command. rewrite with_user_data_run.
  destruct (net (calls w)); [destruct (record_truthy _)|]; cbn [record_truthy];
    repeat match goal with
           | |- context [match fmt_2f ?v with _ => _ end] => destruct (fmt_2f v)
           end; repeat split.
Qed.

Lemma withdraw_command_store net tid w :
  same_store w (snd (withdraw_command net tid w))
  /\ calls (snd (withdraw_command net tid w)) = S (calls w).
Proof.
  rewrite withdraw_command_run.
  destruct (net (calls w)); [destruct (record_truthy _)|]; repeat split.
Qed.

Lemma stats_command_run env net uid wd w :
  stats_command env net uid wd w =
  if negb (is_admin env uid) then (Sent (Answer AdminOnly []), w)
  else
    match net (calls w) with
    | None => (Sent (Answer (StatsError NetworkError) []), tick w)
    | Some _ =>
        match net (S (calls w)) with
        | None => (Sent (Answer (StatsError NetworkError) []), tick (tick w))
        | Some _ =>
            match net (S (S (calls w))) with
            | None => (Sent (Answer (StatsError NetworkError) []), tick (tick (tick w)))
            | Some _ =>
                (Sent (Answer (Stats (size (users w)) (count_refs (referrals_snapshot w))
                                 (size wd)) []),
                 tick (tick (tick w)))
            end
        end
    end.
Proof.
  unfold stats_command. destruct (negb (is_admin env uid)); [reflexivity|].
  unfold try_except, mbind, M_mbind, bind, remote, ret.
  destruct w as [us rf c co]. cbn [calls tick users referrals console].
  destruct (net c); [|reflexivity].
  cbn [calls tick users referrals console]. destruct (net (S c)); [|reflexivity].
  cbn [calls tick users referrals console]. destruct (net (S (S c))); reflexivity.
Qed.

Lemma stats_command_store env net uid wd w :
  same_store w (snd (stats_command env net uid wd w))
  /\ (calls w <= calls (snd (stats_command env net uid wd w)) <= 3 + calls w)%nat.
Proof.
  rewrite stats_command_run. unfold same_store.
  destruct (negb (is_admin env uid)); [|destruct (net (calls w));
    [destruct (net (S (calls w))); [destruct (net (S (S (calls w))))|]|]];
    cbn [snd tick users referrals calls]; repeat split; clear; lia.
Qed.

(** X8: [/balance], [/referrals], [/withdraw] and [/stats] only read:
    the accounts and the ledger are the same after them, and each of the
    first three makes exactly one remote call. *)
Theorem commands_only_read env net tid wd w :
  same_store w (snd (balance_command net tid w))
  /\ same_store w (snd (referrals_command env net tid w))
  /\ same_store w (snd (withdraw_command net tid w))
  /\ same_store w (snd (stats_command env net tid wd w))
  /\ calls (snd (balance_command net tid w)) = S (calls w)
  /\ calls (snd (referrals_command env net tid w)) = S (calls w)
  /\ calls (snd (withdraw_command net tid w)) = S (calls w).
Proof.
  pose proof (balance_command_store net tid w) as [Hb Hbc].
  pose proof (referrals_command_store env net tid w) as [Hr Hrc].
  pose proof (withdraw_command_store net tid w) as [Hw Hwc].
  pose proof (stats_command_store env net tid wd w) as [Hs _].
  exact (conj Hb (conj Hr (conj Hw (conj Hs (conj Hbc (conj Hrc Hwc)))))).
Qed.

(** X9: when the read of the caller's record fails, or the record is
    absent or empty, [/balance], [/referrals] and [/withdraw] all answer
    "Use /start first!": a failed read is not told apart from a user who
    never registered. *)
Theorem unreadable_is_unregistered env net tid w :
  net (calls w) = None \/ record_truthy (users w !! user_key tid) = false ->
  fst (balance_command net tid w) = Sent (Answer UseStartFirst [])
  /\ fst (referrals_command env net tid w) = Sent (Answer UseStartFirst [])
  /\ fst (withdraw_command net tid w) = Ok ReplyUseStartFirst.
Proof.
  intros H. unfold balance_command, referrals_command.
  rewrite !with_user_data_run, withdraw_command_run.
  destruct (net (calls w)) as [t|].
  - destruct H as [H|H]; [discriminate|]. rewrite H. auto.
  - auto.
Qed.

Lemma unreadable_is_unregistered_witness :
  fst (balance_command (down_after 0 1700) 7 fresh_world) = Sent (Answer UseStartFirst [])
  /\ users fresh_world !! user_key 7 <> None.
Proof.
  split; [|discriminate].
  apply (unreadable_is_unregistered (Environment "bot" "" "" None) (down_after 0 1700) 7
           fresh_world).
  left. reflexivity.
Defined.

(** *** /start *)

Lemma start_command_run env net tid un fn ln args w :
  start_command env net tid un fn ln args w =
  match net (calls w) with
  | Some _ =>
      if record_truthy (users w !! user_key tid) then
        let d := default ∅ (users w !! user_key tid) in
        match fmt_2f (dict_get d "balance" (VInt 0)) with
        | Sent balance =>
            (Sent (Answer (WelcomeBack fn balance (dict_get d "dailyAdsWatched" (VInt 0))
                             (dict_get d "referrals" (VInt 0)))
                     [open_app_url env tid fn; CHANNEL_URL env]), tick w)
        | Crashed e => (Crashed e, tick w)
        end
      else
        (Sent (first_welcome env tid fn ln args),
         snd (create_user net tid un fn ln (referrer_arg args) (tick w)))
  | None =>
      (Sent (first_welcome env tid fn ln args),
       snd (create_user net tid un fn ln (referrer_arg args)
              (log (LogErrorGettingUser NetworkError) (tick w))))
  end.
Proof.
  unfold start_command. rewrite with_user_data_run. cbv zeta.
  destruct (net (calls w)) as [t|].
  - destruct (record_truthy (users w !! user_key tid)); [reflexivity|].
    destruct (create_user_returns net tid un fn ln (referrer_arg args) (tick w)) as [o Ho].
    destruct (create_user _ _ _ _ _ _ _) as [[o'|e] w2]; cbn [fst snd] in *;
      [reflexivity|discriminate].
  - cbn [record_truthy].
    destruct (create_user_returns net tid un fn ln (referrer_arg args)
                (log (LogErrorGettingUser NetworkError) (tick w))) as [o Ho].
    destruct (create_user _ _ _ _ _ _ _) as [[o'|e] w2]; cbn [fst snd] in *;
      [reflexivity|discriminate].
Qed.

Lemma fresh_world_record : users fresh_world !! user_key 7 = Some first_record.
Proof. reflexivity. Qed.

(** X10: [/start] from a user whose record is read and is not empty
    writes nothing, whatever its argument: no account is created again, no
    referral is recorded, one remote call is made, and an answer, when
    one is sent, is the welcome-back message with the balance of the
    record. *)
Theorem start_keeps_existing_account env net tid un fn ln args w d t :
  net (calls w) = Some t ->
  users w !! user_key tid = Some d -> record_truthy (Some d) = true ->
  let r := start_command env net tid un fn ln args w in
  same_store w (snd r) /\ calls (snd r) = S (calls w)
  /\ forall a, fst r = Sent a ->
       exists balance,
         fmt_2f (dict_get d "balance" (VInt 0)) = Sent balance
         /\ text a = WelcomeBack fn balance (dict_get d "dailyAdsWatched" (VInt 0))
                       (dict_get d "referrals" (VInt 0)).
Proof.
  intros Hn Hd Ht r. subst r. rewrite start_command_run, Hn, Hd, Ht.
  change (default ∅ (Some d)) with d. cbv zeta.
  destruct (fmt_2f (dict_get d "balance" (VInt 0))) as [b|e]; cbn [fst snd].
  - repeat split. intros a Ha. inversion Ha; subst a. exists b. split; reflexivity.
  - repeat split. intros a Ha. discriminate Ha.
Qed.

Lemma start_keeps_existing_account_witness :
  same_store fresh_world
    (snd (start_command (Environment "bot" "" "" None) (up_at 1800) 7 (Some "bob") "Bob" None
            ["tg_3"] fresh_world)).
Proof.
  refine (proj1 (start_keeps_existing_account (Environment "bot" "" "" None) (up_at 1800) 7
                   (Some "bob") "Bob" None ["tg_3"] fresh_world first_record 1800 _ _ _)).
  - reflexivity.
  - exact fresh_world_record.
  - reflexivity.
Defined.

(** X11: [/start] never writes: for every caller, argument, store and
    network the accounts and the ledger are as they were, and the one
    remote call made is the read of the caller's record. *)
Theorem start_never_writes env net tid un fn ln args w :
  let r := start_command env net tid un fn ln args w in
  same_store w (snd r) /\ calls (snd r) = S (calls w).
Proof.
  cbv zeta. rewrite start_command_run.
  destruct (net (calls w)) as [t|].
  - destruct (record_truthy (users w !! user_key tid)).
    + cbv zeta. destruct (fmt_2f _); repeat split.
    + rewrite create_user_run. repeat split.
  - rewrite create_user_run. repeat split.
Qed.

(** X12: a user without a readable record who starts the bot with an
    argument that is not empty is told "Referred by a friend", although
    no ledger entry is written and no account is changed. *)
Theorem referred_without_referral env net tid un fn ln referrer_id rest w :
  referrer_id <> "" ->
  net (calls w) = None \/ record_truthy (users w !! user_key tid) = false ->
  let r := start_command env net tid un fn ln (referrer_id :: rest) w in
  fst r = Sent (Answer (Welcome fn (or_empty ln) tid true)
                  [open_app_url env tid fn; CHANNEL_URL env])
  /\ referrals (snd r) = referrals w
  /\ users (snd r) = users w.
Proof.
  intros Hne H. cbv zeta. rewrite start_command_run.
  unfold first_welcome, referrer_arg. cbn [head].
  replace (String.eqb referrer_id "") with false by (symmetry; apply String.eqb_neq, Hne).
  rewrite !create_user_run.
  destruct (net (calls w)) as [t|].
  - destruct H as [H|H]; [discriminate|]. rewrite H. repeat split.
  - repeat split.
Qed.

Lemma referred_without_referral_witness :
  let r := start_command (Environment "bot" "" "" None) (up_at 1800) 8 None "Ann" None
             ["tg_7"] fresh_world in
  (exists a, fst r = Sent a /\ text a = Welcome "Ann" "" 8 true)
  /\ referrals (snd r) = ∅
  /\ users (snd r) !! "tg_7" = Some first_record.
Proof.
  destruct (referred_without_referral (Environment "bot" "" "" None) (up_at 1800) 8 None
              "Ann" None "tg_7" [] fresh_world) as (Hf & Hr & Hu).
  - discriminate.
  - right. vm_compute. reflexivity.
  - cbv zeta. rewrite Hr, Hu. split; [|split; reflexivity].
    eexists. split; [exact Hf|reflexivity].
Defined.

(** X14: a user without a record is welcomed as a new user by [/start],
    whatever the network, but is not registered: the store is as it was,
    so [/balance], [/referrals] and [/withdraw] after it answer
    "Use /start first!", and a second [/start] welcomes the user as new
    again. *)
Theorem welcome_without_account env net net' tid un fn ln args w :
  record_truthy (users w !! user_key tid) = false ->
  let r := start_command env net tid un fn ln args w in
  fst r = Sent (first_welcome env tid fn ln args)
  /\ same_store w (snd r)
  /\ fst (balance_command net' tid (snd r)) = Sent (Answer UseStartFirst [])
  /\ fst (referrals_command env net' tid (snd r)) = Sent (Answer UseStartFirst [])
  /\ fst (withdraw_command net' tid (snd r)) = Ok ReplyUseStartFirst
  /\ fst (start_command env net' tid un fn ln args (snd r))
     = Sent (first_welcome env tid fn ln args).
Proof.
  intros Hnew. cbv zeta.
  set (r := start_command env net tid un fn ln args w).
  assert (Hf : fst r = Sent (first_welcome env tid fn ln args)).
  { subst r. rewrite start_command_run.
    destruct (net (calls w)); [rewrite Hnew|]; reflexivity. }
  assert (Hs : same_store w (snd r)).
  { subst r. rewrite start_command_run.
    destruct (net (calls w)); [rewrite Hnew|]; rewrite create_user_run; repeat split. }
  assert (Hnew' : record_truthy (users (snd r) !! user_key tid) = false).
  { rewrite (proj1 Hs). exact Hnew. }
  split; [exact Hf|]. split; [exact Hs|].
  unfold balance_command, referrals_command.
  rewrite !with_user_data_run, withdraw_command_run, start_command_run.
  destruct (net' (calls (snd r))); [rewrite Hnew'|]; repeat split.
Qed.

Lemma welcome_without_account_witness :
  let r := start_command (Environment "bot" "" "" None) (up_at 1800) 8 None "Ann" None []
             fresh_world in
  (exists a, fst r = Sent a /\ text a = Welcome "Ann" "" 8 false)
  /\ users (snd r) !! user_key 8 = None
  /\ fst (balance_command (up_at 1900) 8 (snd r)) = Sent (Answer UseStartFirst []).
Proof.
  destruct (welcome_without_account (Environment "bot" "" "" None) (up_at 1800) (up_at 1900)
              8 None "Ann" None [] fresh_world) as (Hf & [Hu _] & Hb & _).
  - vm_compute. reflexivity.
  - cbv zeta. split; [|split].
    + eexists. split; [exact Hf|reflexivity].
    + rewrite Hu. vm_compute. reflexivity.
    + exact Hb.
Defined.

Lemma count_refs_insert (M : gmap string (gmap string dict)) i (m2 : gmap string dict) :
  M !! i = None -> count_refs (<[i := m2]> M) = (count_refs M + size m2)%nat.
Proof.
  intros Hi. unfold count_refs.
  rewrite map_fold_insert_L; [reflexivity| |exact Hi].
  intros. lia.
Qed.

Lemma count_refs_replace (M : gmap string (gmap string dict)) i (m2 m2' : gmap string dict) :
  M !! i = Some m2 -> (count_refs (<[i := m2']> M) + size m2 = count_refs M + size m2')%nat.
Proof.
  intros Hi.
  rewrite <- (insert_delete_id M i m2 Hi) at 2.
  rewrite <- (insert_delete_eq M i m2').
  rewrite !count_refs_insert by apply lookup_delete_eq. lia.
Qed.

Lemma map_curry_insert_entry (m : gmap (string * string) dict) i j (x : dict) :
  map_curry (M1:=gmap string) (M2:=gmap string) (<[(i, j) := x]> m)
  = <[i := <[j := x]> (default ∅ (map_curry (M1:=gmap string) (M2:=gmap string) m !! i))]>
      (map_curry (M1:=gmap string) (M2:=gmap string) m).
Proof.
  set (M' := <[i := _]> (map_curry m)).
  assert (Hne : forall i' m2, M' !! i' = Some m2 -> m2 <> ∅).
  { intros i' m2. subst M'. destruct (decide (i' = i)) as [->|Hi].
    - rewrite lookup_insert_eq. intros [= <-]. apply insert_non_empty.
    - rewrite lookup_insert_ne by congruence. apply map_curry_non_empty. }
  rewrite <- (map_curry_uncurry_non_empty M') by
    (intros i' m2 H; apply (Hne i' m2 H)).
  f_equal. apply map_eq. intros [i' j'].
  rewrite lookup_map_uncurry. subst M'.
  destruct (decide (i' = i)) as [->|Hi].
  - rewrite lookup_insert_eq. cbn.
    destruct (decide (j' = j)) as [->|Hj].
    + rewrite !lookup_insert_eq. reflexivity.
    + rewrite !lookup_insert_ne by congruence.
      rewrite <- lookup_map_curry.
      destruct (map_curry m !! i); reflexivity.
  - rewrite !lookup_insert_ne by congruence. rewrite <- lookup_map_curry. reflexivity.
Qed.

Lemma count_refs_curry (m : gmap (string * string) dict) :
  count_refs (map_curry (M1:=gmap string) (M2:=gmap string) m) = size m.
Proof.
  induction m as [|[i j] x m Hm IH] using map_ind.
  - unfold count_refs, map_curry. rewrite !map_fold_empty, map_size_empty. reflexivity.
  - rewrite map_curry_insert_entry, map_size_insert_None by exact Hm.
    assert (Hj : (default ∅ (map_curry (M1:=gmap string) (M2:=gmap string) m !! i)) !! j = None).
    { rewrite <- lookup_map_curry in Hm.
      destruct (map_curry m !! i); [exact Hm|reflexivity]. }
    destruct (map_curry (M1:=gmap string) (M2:=gmap string) m !! i) as [m2|] eqn:Hi.
    + cbn [default id] in *.
      pose proof (count_refs_replace _ i m2 (<[j := x]> m2) Hi) as H.
      rewrite map_size_insert_None in H by exact Hj. lia.
    + cbn [default] in *. rewrite count_refs_insert by exact Hi.
      rewrite map_size_insert_None by exact Hj. rewrite map_size_empty. lia.
Qed.

(** X15: [/stats] from a user whose id, printed in decimal, is not
    [ADMIN_CHAT_ID] (in particular when that variable is not set) answers
    "Admin only!", makes no remote call and changes nothing. *)
Theorem stats_admin_only env net uid wd w :
  ADMIN_CHAT_ID env <> Some (pretty uid) ->
  stats_command env net uid wd w = (Sent (Answer AdminOnly []), w).
Proof.
  intros H. unfold stats_command, is_admin.
  destruct (ADMIN_CHAT_ID env) as [admin|]; [|reflexivity].
  destruct (String.eqb (pretty uid) admin) eqn:E; [|reflexivity].
  apply String.eqb_eq in E. congruence.
Qed.

Lemma stats_admin_only_witness :
  stats_command (Environment "bot" "" "" None) (up_at 1800) 7 ∅ fresh_world
  = (Sent (Answer AdminOnly []), fresh_world).
Proof.
  apply (stats_admin_only (Environment "bot" "" "" None) (up_at 1800) 7 ∅ fresh_world).
  discriminate.
Defined.

(** X16: [/stats] from the administrator answers with the number of
    accounts, the number of ledger entries (the sum over the referrers of
    their entries) and the number of withdrawals when its three reads are
    served, and with the error message, not an exception, when one of
    them fails. *)
Theorem stats_counts env net uid wd w :
  ADMIN_CHAT_ID env = Some (pretty uid) ->
  fst (stats_command env net uid wd w)
  = Sent (Answer
            match net (calls w), net (S (calls w)), net (S (S (calls w))) with
            | Some _, Some _, Some _ => Stats (size (users w)) (size (referrals w)) (size wd)
            | _, _, _ => StatsError NetworkError
            end []).
Proof.
  intros H. rewrite stats_command_run. unfold is_admin. rewrite H, String.eqb_refl.
  cbn [negb]. unfold referrals_snapshot. rewrite count_refs_curry.
  destruct (net (calls w)); [|reflexivity].
  destruct (net (S (calls w))); [|reflexivity].
  destruct (net (S (S (calls w)))); reflexivity.
Qed.

Lemma stats_counts_witness :
  fst (stats_command (Environment "bot" "" "" (Some "7")) (up_at 1800) 7 ∅ credited_world)
  = Sent (Answer (Stats 1 1 0) []).
Proof.
  rewrite (stats_counts (Environment "bot" "" "" (Some "7")) (up_at 1800) 7 ∅ credited_world
             eq_refl).
  vm_compute. reflexivity.
Defined.

Lemma fmt_2f_sent (v : value) : (exists s, fmt_2f v = Sent s) <-> is_amount v.
Proof.
  destruct v as [| b | z | f | s |]; cbn [fmt_2f is_amount].
  - split; [intros [s' H]; discriminate H|intros []].
  - split; [auto|eauto].
  - unfold float_of_int.
    destruct (Z.ltb_spec (Z.abs z) (2 ^ 1024 - 2 ^ 970)) as [E|E].
    + split; [intros _; exact E|intros _; eexists; reflexivity].
    + split; [intros [s' H]; discriminate H|intros H; exfalso; revert E H; apply Z.le_ngt].
  - split; [auto|eauto].
  - split; [intros [s' H]; discriminate H|intros []].
  - split; [intros [s' H]; discriminate H|intros []].
Qed.

(** X18: [/balance] on a record that is read and not empty sends an
    answer exactly when [balance], [totalEarnings] and [referralEarnings]
    (0 when missing) are each a float, a boolean or an integer within the
    range of the floats; otherwise an exception leaves the handler. *)
Theorem balance_answers_iff_amounts net tid w d t :
  net (calls w) = Some t ->
  users w !! user_key tid = Some d -> record_truthy (Some d) = true ->
  (exists a, fst (balance_command net tid w) = Sent a)
  <-> is_amount (dict_get d "balance" (VInt 0))
      /\ is_amount (dict_get d "totalEarnings" (VInt 0))
      /\ is_amount (dict_get d "referralEarnings" (VInt 0)).
Proof.
  intros Hn Hd Ht. unfold balance_command. rewrite with_user_data_run, Hn, Hd, Ht.
  change (default ∅ (Some d)) with d. cbv zeta.
  rewrite <- !fmt_2f_sent.
  destruct (fmt_2f (dict_get d "balance" (VInt 0))) as [b|e].
  2:{ cbn [fst]. split; [intros [a H]; discriminate H|].
      intros ([s H] & _). discriminate H. }
  destruct (fmt_2f (dict_get d "totalEarnings" (VInt 0))) as [te|e].
  2:{ cbn [fst]. split; [intros [a H]; discriminate H|].
      intros (_ & [s H] & _). discriminate H. }
  destruct (fmt_2f (dict_get d "referralEarnings" (VInt 0))) as [re|e].
  2:{ cbn [fst]. split; [intros [a H]; discriminate H|].
      intros (_ & _ & [s H]). discriminate H. }
  cbn [fst]. split; intros _; [repeat split; eexists; reflexivity|eexists; reflexivity].
Qed.

Lemma balance_answers_iff_amounts_witness :
  exists a, fst (balance_command (up_at 1800) 7 fresh_world) = Sent a.
Proof.
  refine (proj2 (balance_answers_iff_amounts (up_at 1800) 7 fresh_world first_record 1800
                   _ _ _) _).
  - reflexivity.
  - exact fresh_world_record.
  - reflexivity.
  - vm_compute. repeat split.
Defined.

(** X20: [/withdraw] records nothing: a second [/withdraw] whose read
    is served gets the answer of the first and leaves the store as it
    was. *)
Theorem withdraw_is_repeatable net tid w t t' :
  net (calls w) = Some t ->
  let first := withdraw_command net tid w in
  net (calls (snd first)) = Some t' ->
  fst (withdraw_command net tid (snd first)) = fst first
  /\ same_store w (snd (withdraw_command net tid (snd first))).
Proof.
  intros Hn first Hn'.
  pose proof (withdraw_command_store net tid w) as [[Hu Hr] Hc].
  pose proof (withdraw_command_store net tid (snd first)) as [[Hu' Hr'] _].
  fold first in Hu, Hr, Hc. split.
  - rewrite (withdraw_command_run net tid (snd first)), Hn', Hu.
    subst first. rewrite (withdraw_command_run net tid w), Hn.
    destruct (record_truthy (users w !! user_key tid)); reflexivity.
  - split; congruence.
Qed.

Lemma withdraw_is_repeatable_witness :
  fst (withdraw_command (up_at 1800) 7 (snd (withdraw_command (up_at 1800) 7 fresh_world)))
  = fst (withdraw_command (up_at 1800) 7 fresh_world).
Proof.
  exact (proj1 (withdraw_is_repeatable (up_at 1800) 7 fresh_world 1800 1800 eq_refl eq_refl)).
Defined.

Lemma Z2F_small (z : Z) :
  Z.abs z <= 2 ^ 53 -> z <> 0 ->
  exists m e, Prim2SF (Z2F z) = S754_finite (z <? 0) m e
              /\ -1074 <= e /\ Zpos m * 2 ^ (e + 1074) = Z.abs z * 2 ^ 1074.
Proof.
  intros Hz Hne. rewrite Z2F_spec.
  pose proof (pow2_pos 1074 ltac:(lia)) as Hp.
  destruct (Rz_props (z * 2 ^ 1074)) as (Hv & Hnan & Ho).
  rewrite (ordR_small_int z Hz) in Ho.
  pose proof (top_above_small_int z Hz) as Htop.
  destruct (Rz (z * 2 ^ 1074)) as [s|s| |s m e]; cbn [SFord SFval] in Ho.
  - exfalso. nia.
  - exfalso. destruct s; cbn [cond_Zopp] in Ho; lia.
  - discriminate Hnan.
  - cbn [valid_binary] in Hv. apply bounded_normal in Hv as [[_ [He _]] _].
    pose proof (pow2_pos (e + 1074) He) as Hpe.
    exists m, e. destruct s; cbn [cond_Zopp] in Ho.
    + assert (z < 0) by nia. replace (z <? 0) with true by (symmetry; apply Z.ltb_lt; lia).
      split; [reflexivity|]. split; [lia|]. rewrite Z.abs_neq by lia. lia.
    + assert (0 < z) by nia. replace (z <? 0) with false by (symmetry; apply Z.ltb_ge; lia).
      split; [reflexivity|]. split; [lia|]. rewrite Z.abs_eq by lia. lia.
Qed.

Lemma cents_of_whole (m : positive) (e a : Z) :
  -1074 <= e -> 0 <= a -> Zpos m * 2 ^ (e + 1074) = a * 2 ^ 1074 -> cents_of m e = a * 100.
Proof.
  intros He Ha H. unfold cents_of.
  pose proof (pow2_pos 1074 ltac:(lia)) as Hp.
  destruct (Z.leb_spec 0 e) as [Hpos|Hneg].
  - rewrite Z.pow_add_r in H by lia.
    assert (Zpos m * 2 ^ e = a) by nia. lia.
  - pose proof (pow2_pos (e + 1074) ltac:(lia)) as Hpe.
    assert (Hs : 2 ^ 1074 = 2 ^ (- e) * 2 ^ (e + 1074)).
    { rewrite <- Z.pow_add_r by lia. f_equal. lia. }
    assert (Hm : Zpos m = a * 2 ^ (- e)) by (rewrite Hs in H; nia).
    rewrite Hm. replace (a * 2 ^ (- e) * 100) with (a * 100 * 2 ^ (- e)) by lia.
    rewrite <- (rne_mant_0 (a * 100)) at 2.
    apply (rne_mant_scale (a * 100) 0 (- e)); lia.
Qed.

Lemma fmt_cents_whole (s : bool) (a : Z) :
  fmt_cents s (a * 100) = (if s then "-" else "") +:+ pretty a +:+ ".00".
Proof.
  unfold fmt_cents. rewrite Z.div_mul, Z.mod_mul by lia. reflexivity.
Qed.

Lemma small_int_converts (z : Z) : Z.abs z <= 2 ^ 53 -> float_of_int z = Ok (Z2F z).
Proof.
  intros Hz. unfold float_of_int.
  assert (Hb : 2 ^ 53 < 2 ^ 1024 - 2 ^ 970) by (vm_compute; reflexivity).
  replace (Z.abs z <? 2 ^ 1024 - 2 ^ 970) with true; [reflexivity|].
  symmetry. apply Z.ltb_lt. eapply Z.le_lt_trans; eassumption.
Qed.

(** X19: an integer amount of magnitude at most 2^53 is printed by
    [:.2f] as its decimal digits followed by [.00]. *)
Theorem whole_amount_printed (z : Z) :
  Z.abs z <= 2 ^ 53 -> fmt_2f (VInt z) = Sent (pretty z +:+ ".00").
Proof.
  intros Hz. cbn [fmt_2f]. rewrite (small_int_converts z Hz). f_equal.
  unfold fmt_2f_float.
  destruct (Z.eq_dec z 0) as [->|Hne]; [vm_compute; reflexivity|].
  destruct (Z2F_small z Hz Hne) as (m & e & -> & He & Hm).
  rewrite (cents_of_whole m e (Z.abs z) He (Z.abs_nonneg z) Hm), fmt_cents_whole.
  destruct z as [|p|p]; [congruence| |]; reflexivity.
Qed.

Lemma whole_amount_printed_witness : fmt_2f (VInt 60) = Sent "60.00".
Proof.
  apply (whole_amount_printed 60). vm_compute. discriminate.
Defined.

End CommandProps.
